(** * Predicare: the per-conversation clinical state machine and the chat page guard

    A shallow embedding of the code that the repository documents in
    [SAFETY_FIXES.md], [ADVANCED_FEATURES.md] and
    [THREE_TIER_URGENCY_SYSTEM.md] (the Python methods of [CaseContext])
    and of the [Chat] page component (TypeScript), with the properties of
    the triage specification proved over it.

    Conventions of the embedding:
    - a Python [str] is a [string]; the text is taken to be ASCII, so
      [lower], [strip] and [split] act on the ASCII letters and the ASCII
      white space only;
    - a Python [int] is a [Z], a [set] of strings is a [gset string], a
      [dict] whose order shows in the logs is an association list;
    - a Python [float] is a binary64 [float]; [int / int] is the binary64
      quotient of the two converted integers, and raises
      [ZeroDivisionError] on a zero divisor;
    - a method that mutates [self] takes the context and returns the new
      one; a method that can raise returns a [result]. *)

From Stdlib Require Import ZArith String Ascii List Floats Uint63 Lia.
From stdpp Require Import gmap strings list.
Import ListNotations.

(** ** Python string methods used by the code *)

Module PyStr.

(** [c in chars] for a character. *)
Definition mem_char (c : ascii) (chars : list ascii) : bool :=
  existsb (Ascii.eqb c) chars.

(** [str.lower] on one ASCII character: 'A'..'Z' move to 'a'..'z'. *)
Definition lower_char (c : ascii) : ascii :=
  let n := N_of_ascii c in
  if ((65 <=? n) && (n <=? 90))%N then ascii_of_N (n + 32) else c.

Fixpoint lower (s : string) : string :=
  match s with
  | EmptyString => EmptyString
  | String c rest => String (lower_char c) (lower rest)
  end.

(** [needle in hay]: substring test. *)
Fixpoint contains (needle hay : string) : bool :=
  String.prefix needle hay ||
  match hay with
  | EmptyString => false
  | String _ rest => contains needle rest
  end.

Fixpoint lstrip (chars : list ascii) (s : string) : string :=
  match s with
  | EmptyString => EmptyString
  | String c rest => if mem_char c chars then lstrip chars rest else s
  end.

Fixpoint rstrip (chars : list ascii) (s : string) : string :=
  match s with
  | EmptyString => EmptyString
  | String c rest =>
      match rstrip chars rest with
      | EmptyString => if mem_char c chars then EmptyString else String c EmptyString
      | kept => String c kept
      end
  end.

(** [s.strip(chars)]: leading and trailing characters of [chars] go. *)
Definition strip (chars : list ascii) (s : string) : string :=
  rstrip chars (lstrip chars s).

(** [s.replace(old, "")] for a one-character [old]: every occurrence goes. *)
Fixpoint remove_char (old : ascii) (s : string) : string :=
  match s with
  | EmptyString => EmptyString
  | String c rest =>
      if Ascii.eqb c old then remove_char old rest
      else String c (remove_char old rest)
  end.

(** White space of [str.split()] and [str.isspace] below U+0080. *)
Definition is_space (c : ascii) : bool :=
  let n := N_of_ascii c in
  ((9 <=? n) && (n <=? 13) || (28 <=? n) && (n <=? 32))%N.

(** [s.split()]: the maximal runs of non-space characters, in order.
    [tok] is the run being read. *)
Fixpoint split_from (tok : string) (s : string) : list string :=
  match s with
  | EmptyString => if String.eqb tok "" then [] else [tok]
  | String c rest =>
      if is_space c
      then (if String.eqb tok "" then split_from "" rest
            else tok :: split_from "" rest)
      else split_from (tok +:+ String c "") rest
  end.

Definition split (s : string) : list string := split_from "" s.

End PyStr.

(** ** Exceptions and results *)

Inductive exn : Set := KeyError | ZeroDivisionError.

Inductive result (A : Type) : Type :=
| Ok (a : A)
| Raise (e : exn).

Arguments Ok {A} a.
Arguments Raise {A} e.

(** ** The case context *)

(** The fields of [CaseContext] that the documented methods read or write.
    [emergency_level] is the field of [SAFETY_FIXES.md] and
    [ADVANCED_FEATURES.md] ("none", "urgent", "critical");
    [urgency_tier] is the field that [THREE_TIER_URGENCY_SYSTEM.md] puts in
    its place ("routine", "urgent", "emergency"). [organ_system] is [None]
    until detected. [risk_weights] is written by the re-weighting engine
    only and is left out. *)
Record CaseContext : Type := {
  initial_symptoms : string;
  organ_system : option string;
  emergency_level : string;
  urgency_tier : string;
  symptom_history : list string;
  locked : bool;
  severity_score : Z;
  severity_factors : list (string * Z);
  asked_questions : gset string;
  diagnostic_certainty : float
}.

(** Attribute assignments [self.field = v]. *)
Definition with_organ_system (v : option string) (self : CaseContext) : CaseContext :=
  {| initial_symptoms := initial_symptoms self; organ_system := v;
     emergency_level := emergency_level self; urgency_tier := urgency_tier self;
     symptom_history := symptom_history self; locked := locked self;
     severity_score := severity_score self; severity_factors := severity_factors self;
     asked_questions := asked_questions self;
     diagnostic_certainty := diagnostic_certainty self |}.

Definition with_emergency_level (v : string) (self : CaseContext) : CaseContext :=
  {| initial_symptoms := initial_symptoms self; organ_system := organ_system self;
     emergency_level := v; urgency_tier := urgency_tier self;
     symptom_history := symptom_history self; locked := locked self;
     severity_score := severity_score self; severity_factors := severity_factors self;
     asked_questions := asked_questions self;
     diagnostic_certainty := diagnostic_certainty self |}.

Definition with_urgency_tier (v : string) (self : CaseContext) : CaseContext :=
  {| initial_symptoms := initial_symptoms self; organ_system := organ_system self;
     emergency_level := emergency_level self; urgency_tier := v;
     symptom_history := symptom_history self; locked := locked self;
     severity_score := severity_score self; severity_factors := severity_factors self;
     asked_questions := asked_questions self;
     diagnostic_certainty := diagnostic_certainty self |}.

Definition with_severity (score : Z) (factors : list (string * Z))
    (self : CaseContext) : CaseContext :=
  {| initial_symptoms := initial_symptoms self; organ_system := organ_system self;
     emergency_level := emergency_level self; urgency_tier := urgency_tier self;
     symptom_history := symptom_history self; locked := locked self;
     severity_score := score; severity_factors := factors;
     asked_questions := asked_questions self;
     diagnostic_certainty := diagnostic_certainty self |}.

Definition with_asked_questions (v : gset string) (self : CaseContext) : CaseContext :=
  {| initial_symptoms := initial_symptoms self; organ_system := organ_system self;
     emergency_level := emergency_level self; urgency_tier := urgency_tier self;
     symptom_history := symptom_history self; locked := locked self;
     severity_score := severity_score self; severity_factors := severity_factors self;
     asked_questions := v;
     diagnostic_certainty := diagnostic_certainty self |}.

Definition with_diagnostic_certainty (v : float) (self : CaseContext) : CaseContext :=
  {| initial_symptoms := initial_symptoms self; organ_system := organ_system self;
     emergency_level := emergency_level self; urgency_tier := urgency_tier self;
     symptom_history := symptom_history self; locked := locked self;
     severity_score := severity_score self; severity_factors := severity_factors self;
     asked_questions := asked_questions self;
     diagnostic_certainty := v |}.

(** Modelled from the spec: the constructor of [CaseContext] is not among
    the documented snippets. The initial values are the ones the documents
    state: [urgency_tier = "routine"] (THREE_TIER_URGENCY_SYSTEM.md, line
    88), [emergency_level] at the start of "none -> urgent -> critical"
    (SAFETY_FIXES.md, line 26), [organ_system] unset, no question asked,
    score 0, certainty 0. *)
Definition new_case (symptoms : string) : CaseContext :=
  {| initial_symptoms := symptoms; organ_system := None;
     emergency_level := "none"; urgency_tier := "routine";
     symptom_history := []; locked := true;
     severity_score := 0; severity_factors := [];
     asked_questions := ∅;
     diagnostic_certainty := 0%float |}.

(** *** SAFETY_FIXES.md: one-way emergency level, organ-system lock *)

(** [set_emergency] (SAFETY_FIXES.md, lines 40-46). Any level other than
    "critical" and "urgent" falls through both branches. *)
Definition set_emergency (level : string) (self : CaseContext) : CaseContext :=
  if String.eqb level "critical" then with_emergency_level "critical" self
  else if String.eqb level "urgent"
          && negb (String.eqb (emergency_level self) "critical")
       then with_emergency_level "urgent" self
       else self.

(** [validate_organ_system_consistency] (SAFETY_FIXES.md, lines 63-68):
    the returned flag and the context after the call. *)
Definition validate_organ_system_consistency (new_system : string)
    (self : CaseContext) : bool * CaseContext :=
  match organ_system self with
  | None => (true, with_organ_system (Some new_system) self)
  | Some locked_system => (String.eqb locked_system new_system, self)
  end.

(** *** ADVANCED_FEATURES.md: severity scoring *)

(** The accumulation of [_calculate_severity] (lines 79-94) on the
    lower-cased text. *)
Definition score_markers (text_lower : string) : Z :=
  let score := 0%Z in
  let score := if PyStr.contains "sudden" text_lower then (score + 2)%Z else score in
  let score := if PyStr.contains "fever" text_lower then (score + 1)%Z else score in
  let score := if PyStr.contains "headache" text_lower then (score + 3)%Z else score in
  let score := if PyStr.contains "trauma" text_lower then (score + 3)%Z else score in
  let score := if PyStr.contains "vomit" text_lower then (score + 1)%Z else score in
  let score := if PyStr.contains "chest pain" text_lower then (score + 3)%Z else score in
  let score := if PyStr.contains "can't breathe" text_lower then (score + 2)%Z else score in
  score.

(** Modelled from the spec: the snippet leaves out the assignments to
    [self.severity_factors]; each test that adds points also records its
    factor with the same points, starting from an empty dict. The keys are
    the ones of the logged output (lines 131: sudden_onset, neurological,
    vomiting) and of [get_risk_weight_explanation] (trauma, fever); the
    last two are named after the comments of the snippet. *)
Definition factor_markers (text_lower : string) : list (string * Z) :=
  let factors := [] in
  let factors := if PyStr.contains "sudden" text_lower
                 then factors ++ [("sudden_onset", 2%Z)] else factors in
  let factors := if PyStr.contains "fever" text_lower
                 then factors ++ [("fever", 1%Z)] else factors in
  let factors := if PyStr.contains "headache" text_lower
                 then factors ++ [("neurological", 3%Z)] else factors in
  let factors := if PyStr.contains "trauma" text_lower
                 then factors ++ [("trauma", 3%Z)] else factors in
  let factors := if PyStr.contains "vomit" text_lower
                 then factors ++ [("vomiting", 1%Z)] else factors in
  let factors := if PyStr.contains "chest pain" text_lower
                 then factors ++ [("chest_pain", 3%Z)] else factors in
  let factors := if PyStr.contains "can't breathe" text_lower
                 then factors ++ [("breathing_difficulty", 2%Z)] else factors in
  factors.

(** The keywords that [_calculate_severity] looks for, in the order of its
    tests, and which of them occur in a text. *)
Definition markers : list string :=
  ["sudden"; "fever"; "headache"; "trauma"; "vomit"; "chest pain"; "can't breathe"].

Definition marker_presence (text : string) : list bool :=
  map (fun keyword => PyStr.contains keyword (PyStr.lower text)) markers.

(** Points of a marker that is present. *)
Definition points_if (present : bool) (points : Z) : Z :=
  if present then points else 0%Z.

(** The points of a factor dict added up. *)
Definition total_points (factors : list (string * Z)) : Z :=
  fold_right Z.add 0%Z (map snd factors).

(** [_calculate_severity] (lines 74-100). [text_lower] is [text.lower()],
    as in the sibling [_update_risk_weights] (line 24). *)
Definition _calculate_severity (text : string) (self : CaseContext) : CaseContext :=
  let text_lower := PyStr.lower text in
  let self := with_severity (score_markers text_lower) (factor_markers text_lower) self in
  if (5 <=? severity_score self)%Z then set_emergency "critical" self
  else if (3 <=? severity_score self)%Z then set_emergency "urgent" self
  else self.

(** The level that lines 96-100 pass to [set_emergency] at a given score,
    if any. *)
Definition escalation_for (score : Z) : option string :=
  if (5 <=? score)%Z then Some "critical"
  else if (3 <=? score)%Z then Some "urgent"
  else None.

(** The name the three-tier revision gives an emergency level
    (THREE_TIER_URGENCY_SYSTEM.md, line 135: [emergency_level] is an alias
    of [urgency_tier] in the response). *)
Definition tier_of_level (level : string) : string :=
  if String.eqb level "critical" then "emergency"
  else if String.eqb level "urgent" then "urgent"
  else "routine".

(** The candidate tier of a score: the tier name of the level passed to
    [set_emergency], and routine when no call is made. *)
Definition candidate_tier (score : Z) : string :=
  match escalation_for score with
  | Some level => tier_of_level level
  | None => "routine"
  end.

(** *** ADVANCED_FEATURES.md: question suppression *)

(** The literal [0.7]: the binary64 value nearest to 7/10. *)
Definition certainty_threshold : float := 0x1.6666666666666p-1%float.

(** *** ADVANCED_FEATURES.md: redundant question elimination *)

(** [question.lower().strip("? ").replace(".", "").replace(",", "")]. *)
Definition normalize (question : string) : string :=
  PyStr.remove_char ","
    (PyStr.remove_char "."
       (PyStr.strip ["?"%char; " "%char] (PyStr.lower question))).

(** [track_question] (lines 321-324). *)
Definition track_question (question : string) (self : CaseContext) : CaseContext :=
  let normalized := normalize question in
  with_asked_questions ({[ normalized ]} ∪ asked_questions self) self.

(** [set(s.split())]. *)
Definition word_set (s : string) : gset string := list_to_set (PyStr.split s).

Definition float_of_len (n : nat) : float :=
  PrimFloat.of_uint63 (Uint63.of_Z (Z.of_nat n)).

(** [a / b > 0.7] for two lengths, [b] not zero. *)
Definition ratio_above_threshold (a b : nat) : bool :=
  PrimFloat.ltb certainty_threshold (PrimFloat.div (float_of_len a) (float_of_len b)).

(** The exact comparison that [ratio_above_threshold] stands for: more
    than 7 tenths, [10 * a > 7 * b]. *)
Definition exceeds_seventy_percent (a b : nat) : bool := 7 * b <? 10 * a.

(** The two comparisons agree on every pair [a <= b] with [1 <= b <= bound]. *)
Definition ratio_agrees_up_to (bound : nat) : bool :=
  forallb (fun b =>
    forallb (fun a =>
      Bool.eqb (ratio_above_threshold a b) (exceeds_seventy_percent a b))
      (seq 0 (S b)))
    (seq 1 bound).

(** The [for asked in self.asked_questions] loop (lines 335-339) over the
    elements in iteration order, and the [return False] after it. *)
Fixpoint similar_question_loop (normalized : string) (pending : list string)
    : result bool :=
  match pending with
  | [] => Ok false
  | asked :: rest =>
      let asked_words := word_set asked in
      let new_words := word_set normalized in
      if Nat.eqb (size new_words) 0 then Raise ZeroDivisionError
      else if ratio_above_threshold (size (asked_words ∩ new_words)) (size new_words)
           then Ok true
           else similar_question_loop normalized rest
  end.

(** [is_question_asked] (lines 326-341). *)
Definition is_question_asked (question : string) (self : CaseContext) : result bool :=
  let normalized := normalize question in
  if bool_decide (normalized ∈ asked_questions self) then Ok true
  else similar_question_loop normalized (elements (asked_questions self)).

(** *** THREE_TIER_URGENCY_SYSTEM.md: the urgency tier *)

Module ThreeTier.

(** [priority = {"routine": 0, "urgent": 1, "emergency": 2}]. *)
Definition priority : list (string * Z) :=
  [("routine", 0%Z); ("urgent", 1%Z); ("emergency", 2%Z)].

(** [d[key]]: the value, or [KeyError]. *)
Fixpoint getitem (d : list (string * Z)) (key : string) : result Z :=
  match d with
  | [] => Raise KeyError
  | (k, v) :: rest => if String.eqb k key then Ok v else getitem rest key
  end.

(** [set_urgency] (lines 90-95); the log line has no effect on the
    context. *)
Definition set_urgency (tier : string) (self : CaseContext) : result CaseContext :=
  match getitem priority tier with
  | Raise e => Raise e
  | Ok candidate =>
      match getitem priority (urgency_tier self) with
      | Raise e => Raise e
      | Ok current =>
          if (current <? candidate)%Z then Ok (with_urgency_tier tier self)
          else Ok self
      end
  end.

(** Lines 97-104. *)
Definition is_emergency (self : CaseContext) : bool :=
  String.eqb (urgency_tier self) "emergency".

Definition is_urgent (self : CaseContext) : bool :=
  String.eqb (urgency_tier self) "urgent".

Definition is_routine (self : CaseContext) : bool :=
  String.eqb (urgency_tier self) "routine".

End ThreeTier.

(** *** ADVANCED_FEATURES.md: question suppression, continued *)

(** [should_suppress_questions] (ADVANCED_FEATURES.md, lines 147-156);
    [self.is_emergency()] is the method printed in
    THREE_TIER_URGENCY_SYSTEM.md, lines 97-98. *)
Definition should_suppress_questions (self : CaseContext) : bool :=
  if ThreeTier.is_emergency self
     && PrimFloat.ltb certainty_threshold (diagnostic_certainty self)
  then true
  else if String.eqb (emergency_level self) "critical" then true
  else false.

(** A text of ASCII characters only: on such a text [PyStr.lower],
    [PyStr.split] and [Chat.trim] are the methods of Python and
    JavaScript exactly. *)
Fixpoint is_ascii_text (s : string) : bool :=
  match s with
  | EmptyString => true
  | String c rest => (N_of_ascii c <? 128)%N && is_ascii_text rest
  end.

(** ** The session as a state machine *)

(** The calls a session can make on its context. [SetCertainty] is the
    assignment to [diagnostic_certainty], whose derivation the documents
    leave open. *)
Inductive Op : Type :=
| SetUrgency (tier : string)
| SetEmergency (level : string)
| CalculateSeverity (text : string)
| ValidateOrganSystem (new_system : string)
| TrackQuestion (question : string)
| IsQuestionAsked (question : string)
| SetCertainty (certainty : float).

(** The context after one call. A call that raises leaves the context as
    it was: both raising methods raise before any assignment. *)
Definition step (op : Op) (self : CaseContext) : CaseContext :=
  match op with
  | SetUrgency tier =>
      match ThreeTier.set_urgency tier self with
      | Ok self' => self'
      | Raise _ => self
      end
  | SetEmergency level => set_emergency level self
  | CalculateSeverity text => _calculate_severity text self
  | ValidateOrganSystem new_system =>
      snd (validate_organ_system_consistency new_system self)
  | TrackQuestion question => track_question question self
  | IsQuestionAsked _ => self
  | SetCertainty certainty => with_diagnostic_certainty certainty self
  end.

(** The context after a sequence of calls, first call first. *)
Definition run (ops : list Op) (self : CaseContext) : CaseContext :=
  fold_left (fun ctx op => step op ctx) ops self.

(** The rank of a tier or level name in the one-way order, [None] for a
    name outside it. *)
Definition tier_rank (tier : string) : option Z :=
  match ThreeTier.getitem ThreeTier.priority tier with
  | Ok rank => Some rank
  | Raise _ => None
  end.

Definition level_rank (level : string) : option Z :=
  if String.eqb level "none" then Some 0%Z
  else if String.eqb level "urgent" then Some 1%Z
  else if String.eqb level "critical" then Some 2%Z
  else None.

Definition valid_tier (tier : string) : Prop := is_Some (tier_rank tier).
Definition valid_level (level : string) : Prop := is_Some (level_rank level).

(** [a <= b] in the order routine < urgent < emergency. *)
Definition tier_le (a b : string) : Prop :=
  match tier_rank a, tier_rank b with
  | Some x, Some y => (x <= y)%Z
  | _, _ => False
  end.

(** [a <= b] in the order none < urgent < critical. *)
Definition level_le (a b : string) : Prop :=
  match level_rank a, level_rank b with
  | Some x, Some y => (x <= y)%Z
  | _, _ => False
  end.

(** ** The chat page (Chat component) *)

Module Chat.

Inductive Role : Set := user | assistant | system.

(** [interface Message]; [m_id] is [id], [m_timestamp] the clock reading
    of [new Date()]. *)
Record Message : Type := {
  m_id : string;
  role : Role;
  content : string;
  m_timestamp : string
}.

(** [interface Session]. *)
Record Session : Type := {
  s_id : string;
  title : string;
  date : string;
  s_messages : list Message
}.

(** The fields of the stored profile that [handleSend] forwards: each is
    the [toString()] of a truthy field, [None] for a falsy or absent one. *)
Record ProfileData : Type := {
  age : option string;
  gender : option string;
  height : option string;
  weight : option string;
  medicalConditions : option string;
  medications : option string;
  allergies : option string
}.

(** [localStorage.getItem('userProfile')] followed by [JSON.parse]. *)
Inductive ProfileRead : Type :=
| NoProfile
| UnparsableProfile
| Profile (data : ProfileData).

(** What one call of [handleSend] reads from outside the component: the
    clock, the stored profile, the signed-in user's uid. *)
Record SendEnv : Type := {
  now : string;
  savedProfile : ProfileRead;
  uid : option string
}.

(** A [FormData]: the appended entries in order. *)
Definition FormData : Type := list (string * string).

(** The state of the component, and [sent]: the bodies of the [fetch]
    calls made so far, oldest first. *)
Record State : Type := {
  sessions : list Session;
  activeSessionId : option string;
  messages : list Message;
  inputValue : string;
  urgencyTier : option string;
  isLoading : bool;
  sent : list FormData
}.

(** The state of the first render. *)
Definition initial : State :=
  {| sessions := []; activeSessionId := None; messages := []; inputValue := "";
     urgencyTier := None; isLoading := false; sent := [] |}.

(** Truthiness of a string or null value. *)
Definition truthy (v : option string) : bool :=
  match v with
  | Some s => negb (String.eqb s "")
  | None => false
  end.

(** [v || fallback]. *)
Definition or_default (v : option string) (fallback : string) : string :=
  match v with
  | Some s => if String.eqb s "" then fallback else s
  | None => fallback
  end.

(** [String.prototype.trim] on ASCII text. *)
Definition trim (s : string) : string :=
  PyStr.strip (map ascii_of_nat [9; 10; 11; 12; 13; 32]) s.

Definition is_emergency_tier (tier : option string) : bool :=
  match tier with
  | Some t => String.eqb t "emergency"
  | None => false
  end.

(** [if (v) formData.append(key, v)]. *)
Definition append_if (key : string) (v : option string) (form : FormData) : FormData :=
  match v with
  | Some s => if String.eqb s "" then form else form ++ [(key, s)]
  | None => form
  end.

(** The form of lines 582-595. *)
Definition build_form (currentInput : string) (st : State) (env : SendEnv)
    (profileData : option ProfileData) : FormData :=
  let form := [("message", currentInput);
               ("session_id", or_default (activeSessionId st) "default");
               ("user_id", or_default (uid env) "anonymous");
               ("include_voice", "false")] in
  match profileData with
  | None => form
  | Some p =>
      append_if "allergies" (allergies p)
        (append_if "medications" (medications p)
           (append_if "medical_conditions" (medicalConditions p)
              (append_if "weight" (weight p)
                 (append_if "height" (height p)
                    (append_if "gender" (gender p)
                       (append_if "age" (age p) form))))))
  end.

Definition connection_error : string :=
  "Sorry, I'm having trouble connecting to the assessment service. Please try again in a moment.".

Definition with_messages (ms : list Message) (loading : bool) (st : State) : State :=
  {| sessions := sessions st; activeSessionId := activeSessionId st;
     messages := ms; inputValue := inputValue st;
     urgencyTier := urgencyTier st; isLoading := loading; sent := sent st |}.

(** The [catch] block of [handleSend] (lines 625-638). *)
Definition on_error (clock : string) (st : State) : State :=
  with_messages
    (messages st ++ [{| m_id := clock; role := system;
                        content := connection_error; m_timestamp := clock |}])
    false st.

(** [handleSend] up to the [await fetch] (lines 548-600): the guard, the
    user message, and either the request or, when [JSON.parse] throws, the
    [catch] block. *)
Definition handleSend (env : SendEnv) (st : State) : State :=
  if negb (truthy (Some (trim (inputValue st)))) || is_emergency_tier (urgencyTier st)
  then st
  else
    let userMessage := {| m_id := now env; role := user;
                          content := inputValue st; m_timestamp := now env |} in
    let currentInput := inputValue st in
    let st1 := {| sessions := sessions st; activeSessionId := activeSessionId st;
                  messages := messages st ++ [userMessage]; inputValue := "";
                  urgencyTier := urgencyTier st; isLoading := true;
                  sent := sent st |} in
    match savedProfile env with
    | UnparsableProfile => on_error (now env) st1
    | NoProfile =>
        {| sessions := sessions st1; activeSessionId := activeSessionId st1;
           messages := messages st1; inputValue := inputValue st1;
           urgencyTier := urgencyTier st1; isLoading := isLoading st1;
           sent := sent st1 ++ [build_form currentInput st env None] |}
    | Profile p =>
        {| sessions := sessions st1; activeSessionId := activeSessionId st1;
           messages := messages st1; inputValue := inputValue st1;
           urgencyTier := urgencyTier st1; isLoading := isLoading st1;
           sent := sent st1 ++ [build_form currentInput st env (Some p)] |}
    end.

(** How an [await fetch] ends: a failure (network error, a status that is
    not ok, a body that is not JSON), or the parsed [data] with its
    [urgency_tier] and [response] fields. *)
Inductive Outcome : Type :=
| Failed
| Data (urgency_tier : option string) (response : string).

(** The rest of [handleSend] after the [await] (lines 602-638). *)
Definition on_outcome (clock : string) (o : Outcome) (st : State) : State :=
  match o with
  | Failed => on_error clock st
  | Data tier response =>
      let shown := if truthy tier then tier else urgencyTier st in
      {| sessions := sessions st; activeSessionId := activeSessionId st;
         messages := messages st ++
           [{| m_id := clock;
               role := if is_emergency_tier tier then system else assistant;
               content := response; m_timestamp := clock |}];
         inputValue := inputValue st; urgencyTier := shown;
         isLoading := false; sent := sent st |}
  end.

(** [startNewSession] (lines 535-546). *)
Definition startNewSession (clock : string) (st : State) : State :=
  let newSession := {| s_id := clock; title := "New Assessment";
                       date := clock; s_messages := [] |} in
  {| sessions := newSession :: sessions st; activeSessionId := Some (s_id newSession);
     messages := []; inputValue := inputValue st; urgencyTier := None;
     isLoading := isLoading st; sent := sent st |}.

(** The click on a session of the side panel (line 663); there is a button
    for the listed sessions only. *)
Definition selectSession (id : string) (st : State) : State :=
  if existsb (fun s => String.eqb (s_id s) id) (sessions st)
  then {| sessions := sessions st; activeSessionId := Some id;
          messages := messages st; inputValue := inputValue st;
          urgencyTier := urgencyTier st; isLoading := isLoading st;
          sent := sent st |}
  else st.

(** [setInputValue] from the input's [onChange]. *)
Definition setInputValue (v : string) (st : State) : State :=
  {| sessions := sessions st; activeSessionId := activeSessionId st;
     messages := messages st; inputValue := v;
     urgencyTier := urgencyTier st; isLoading := isLoading st; sent := sent st |}.

(** What the input area (lines 823-880) renders. *)
Inductive InputArea : Set :=
| NotRendered
| DisabledNotice
| InputRow (urgent_note : bool) (send_disabled : bool).

Definition input_area (st : State) : InputArea :=
  if truthy (activeSessionId st)
  then if is_emergency_tier (urgencyTier st) then DisabledNotice
       else InputRow (match urgencyTier st with
                      | Some t => String.eqb t "urgent"
                      | None => false
                      end)
                     (negb (truthy (Some (trim (inputValue st)))) || isLoading st)
  else NotRendered.

(** What can happen to the page. *)
Inductive Event : Type :=
| Typed (v : string)
| Send (env : SendEnv)
| Arrived (clock : string) (o : Outcome)
| NewSession (clock : string)
| Selected (id : string).

Definition react (ev : Event) (st : State) : State :=
  match ev with
  | Typed v => setInputValue v st
  | Send env => handleSend env st
  | Arrived clock o => on_outcome clock o st
  | NewSession clock => startNewSession clock st
  | Selected id => selectSession id st
  end.

(** The state after the events, first event first. *)
Definition replay (evs : list Event) (st : State) : State :=
  fold_left (fun s ev => react ev s) evs st.

(** The requests made between two states of one history. *)
Definition submitted_since (before after : State) : list FormData :=
  drop (length (sent before)) (sent after).

(** The [session_id] entry of a request. *)
Definition session_of (form : FormData) : option string :=
  snd <$> List.find (fun kv => String.eqb (fst kv) "session_id") form.

(** An event that leaves the displayed tier alone when it is emergency:
    not a new assessment, and no response carrying another tier. *)
Definition keeps_emergency (ev : Event) : bool :=
  match ev with
  | NewSession _ => false
  | Arrived _ (Data tier _) => negb (truthy tier) || is_emergency_tier tier
  | _ => true
  end.

End Chat.

(** ** Further methods of the case context *)

(** The highest rank among a current rank and the candidates that are
    tier names. *)
Definition highest_rank (current : Z) (candidates : list string) : Z :=
  fold_left (fun acc tier =>
               match tier_rank tier with
               | Some rank => Z.max acc rank
               | None => acc
               end) candidates current.

(** *** The response of the chat endpoint *)

Module ApiResponse.

(** The [result] dict of THREE_TIER_URGENCY_SYSTEM.md, lines 130-139. *)
Record Result : Type := {
  success : bool;
  response : string;
  emergency : bool;
  urgency_tier : string;
  emergency_level : string;
  session_id : string;
  severity_score : Z;
  severity_factors : list (string * Z)
}.

End ApiResponse.

Definition result_of (case_context : CaseContext) (ai_response session : string)
    : ApiResponse.Result :=
  {| ApiResponse.success := true;
     ApiResponse.response := ai_response;
     ApiResponse.emergency := ThreeTier.is_emergency case_context;
     ApiResponse.urgency_tier := urgency_tier case_context;
     ApiResponse.emergency_level := urgency_tier case_context;
     ApiResponse.session_id := session;
     ApiResponse.severity_score := severity_score case_context;
     ApiResponse.severity_factors := severity_factors case_context |}.

(** ** The structured assessment of the chat page *)

(** The regular expressions of [parseAssessment] are all of one shape: a
    literal marker matched without regard to case, white space, a lazy
    capture, and a lookahead for the next marker or the end of the text.
    Such a pattern matches at the first occurrence of its marker, since the
    rest can always match; the white space is taken greedily and the
    capture ends at the first place where the lookahead holds. The text is
    ASCII, as elsewhere. *)
Module Assessment.

(** [pat] at the start of [s], without regard to case: the rest of [s]. *)
Fixpoint starts_with_ci (pat s : string) : option string :=
  match pat, s with
  | EmptyString, _ => Some s
  | String p pat', String c s' =>
      if Ascii.eqb (PyStr.lower_char p) (PyStr.lower_char c)
      then starts_with_ci pat' s' else None
  | String _ _, EmptyString => None
  end.

(** The first occurrence of [pat] in [s], without regard to case: the text
    before it and the text after it. *)
Fixpoint find_ci (pat s : string) : option (string * string) :=
  match starts_with_ci pat s with
  | Some rest => Some (EmptyString, rest)
  | None =>
      match s with
      | EmptyString => None
      | String c s' =>
          match find_ci pat s' with
          | Some (before, rest) => Some (String c before, rest)
          | None => None
          end
      end
  end.

(** [\s] on ASCII text. *)
Definition is_space (c : ascii) : bool :=
  PyStr.mem_char c (map ascii_of_nat [9; 10; 11; 12; 13; 32]).

(** [\s*] at the start of [s]: what is left after it. *)
Fixpoint skip_space (s : string) : string :=
  match s with
  | EmptyString => EmptyString
  | String c rest => if is_space c then skip_space rest else s
  end.

(** [([\s\S]*?)(?=look|$)] at the start of [s]: the capture and what is
    left after it. *)
Fixpoint capture_until (look s : string) : string * string :=
  match starts_with_ci look s with
  | Some _ => (EmptyString, s)
  | None =>
      match s with
      | EmptyString => (EmptyString, EmptyString)
      | String c rest =>
          let (captured, left) := capture_until look rest in
          (String c captured, left)
      end
  end.

(** [content.replace(/\*\*GREETING\*\*[\s\S]*?(?=\*\*|$)/i, '')]. *)
Definition remove_greeting (content : string) : string :=
  match find_ci "**GREETING**" content with
  | Some (before, rest) => before +:+ snd (capture_until "**" rest)
  | None => content
  end.

(** [s.replace(/Thank you for sharing your symptoms\./i, '')]. *)
Definition remove_thanks (s : string) : string :=
  match find_ci "Thank you for sharing your symptoms." s with
  | Some (before, rest) => before +:+ rest
  | None => s
  end.

(** [s.match(/marker\s*([\s\S]*?)(?=look|$)/i)] and, on a match, the
    trimmed first group. *)
Definition section (marker look s : string) : option string :=
  match find_ci marker s with
  | Some (_, rest) => Some (Chat.trim (fst (capture_until look (skip_space rest))))
  | None => None
  end.

(** [s.match(/marker\s*([\s\S]*?)$/i)] and, on a match, the trimmed
    first group. *)
Definition section_to_end (marker s : string) : option string :=
  match find_ci marker s with
  | Some (_, rest) => Some (Chat.trim (skip_space rest))
  | None => None
  end.

(** The [sections] record; a key that was not assigned is [None]. *)
Record Sections : Type := {
  summary : option string;
  concern : option string;
  other : option string;
  action : option string;
  disclaimer : option string
}.

(** [parseAssessment] (lines 411-432 of the chat page). *)
Definition parseAssessment (content : string) : Sections :=
  let cleanContent := Chat.trim (remove_greeting content) in
  let cleanContent := Chat.trim (remove_thanks cleanContent) in
  {| summary := section "**SUMMARY**" "**" cleanContent;
     concern := section "**PRIMARY CONCERN**" "**" cleanContent;
     other := section "**OTHER POSSIBILITIES**" "**" cleanContent;
     action := section "**ACTION**" "**DISCLAIMER" cleanContent;
     disclaimer := section_to_end "**DISCLAIMER:**" cleanContent |}.

(** [isStructuredAssessment] (lines 404-408); [String.prototype.includes]
    is the substring test. *)
Definition isStructuredAssessment (content : string) : bool :=
  PyStr.contains "**SUMMARY**" content
  || PyStr.contains "**PRIMARY CONCERN**" content
  || PyStr.contains "**ACTION**" content.

(** How a message of the list is drawn (lines 764-801). *)
Inductive Drawn : Set := AlertBox | Panel | Bubble.

Definition draw (message : Chat.Message) : Drawn :=
  match Chat.role message with
  | Chat.system => AlertBox
  | Chat.assistant =>
      if isStructuredAssessment (Chat.content message) then Panel else Bubble
  | Chat.user => Bubble
  end.

End Assessment.

(** ** The consultation console (AIDoctorConsole component) *)

Module Console.

(** The [type] of a message of the console. *)
Inductive MessageType : Set := user | doctor | system | emergency.

(** The fields of a console message that the consultation sets. *)
Record Message : Type := {
  type : MessageType;
  content : string;
  emergency_flag : bool;
  emergencyLevel : option string
}.

(** The success branch of [handleTextConsultation] (lines 149-151): the
    message added for a result, [None] when [result.success] is false and
    the handler throws instead. *)
Definition consultation_message (result : ApiResponse.Result) : option Message :=
  if ApiResponse.success result
  then Some {| type := if ApiResponse.emergency result then emergency else doctor;
               content := ApiResponse.response result;
               emergency_flag := ApiResponse.emergency result;
               emergencyLevel := Some (ApiResponse.emergency_level result) |}
  else None.

(** The banner above a message (lines 501-519). *)
Inductive Banner : Set := CriticalBanner | UrgentBanner | NoBanner.

Definition banner (message : Message) : Banner :=
  match emergencyLevel message with
  | Some level =>
      if String.eqb level "critical" then CriticalBanner
      else if String.eqb level "urgent" then UrgentBanner
      else NoBanner
  | None => NoBanner
  end.

End Console.

(** ** Notions for the requests of the chat page *)

(** The first entry of a form under a key ([FormData.get]). *)
Definition form_get (key : string) (form : Chat.FormData) : option string :=
  snd <$> List.find (fun kv => String.eqb (fst kv) key) form.

(** A request as [handleSend] builds them: a message that is not blank, a
    session id and a user id that are not empty, no voice. *)
Definition well_formed_request (form : Chat.FormData) : Prop :=
  (∃ message, form_get "message" form = Some message ∧ Chat.trim message ≠ "") ∧
  (∃ session, form_get "session_id" form = Some session ∧ session ≠ "") ∧
  (∃ user_id, form_get "user_id" form = Some user_id ∧ user_id ≠ "") ∧
  form_get "include_voice" form = Some "false".

(** The active session, when there is one, is a listed session. *)
Definition active_is_listed (st : Chat.State) : Prop :=
  ∀ id, Chat.activeSessionId st = Some id → id ∈ Chat.s_id <$> Chat.sessions st.

(** A request addressed to "default" or to a session of the list. *)
Definition addressed_to_listed (listed : list Chat.Session) (form : Chat.FormData) : Prop :=
  ∃ session, form_get "session_id" form = Some session ∧
    (session = "default" ∨ session ∈ Chat.s_id <$> listed).

(** A session as [startNewSession] makes it. *)
Definition blank_session (s : Chat.Session) : Prop :=
  Chat.title s = "New Assessment" ∧ Chat.s_messages s = [].

Definition is_send (ev : Chat.Event) : bool :=
  match ev with
  | Chat.Send _ => true
  | _ => false
  end.

(** An event that cannot change the displayed tier: not a new assessment
    and not a response that carries a tier. *)
Definition keeps_tier (ev : Chat.Event) : bool :=
  match ev with
  | Chat.NewSession _ => false
  | Chat.Arrived _ (Chat.Data tier _) => negb (Chat.truthy tier)
  | _ => true
  end.

(** The response of the endpoint as the page receives it: the fields
    [urgency_tier] and [response] of the parsed body. *)
Definition outcome_of (result : ApiResponse.Result) : Chat.Outcome :=
  Chat.Data (Some (ApiResponse.urgency_tier result)) (ApiResponse.response result).

(** * Properties *)

(** Comparisons with a literal stay folded under [cbn] and [simpl]; a
    comparison of two literals is evaluated by [eqb_closed]. *)
#[local] Arguments String.eqb : simpl never.

Ltac eqb_closed :=
  repeat match goal with
  | |- context [String.eqb ?a ?b] =>
      let v := eval vm_compute in (String.eqb a b) in
      lazymatch v with
      | true => change (String.eqb a b) with true
      | false => change (String.eqb a b) with false
      end
  end.

(** ** The string methods on sample inputs *)

Example lower_sample : PyStr.lower "Sudden HEADACHE, 38.5C?" = "sudden headache, 38.5c?".
Proof. reflexivity. Qed.

Example contains_sample :
  PyStr.contains "chest pain" "crushing chest pain" = true ∧
  PyStr.contains "chest pain" "pain in my chest" = false ∧
  PyStr.contains "" "" = true.
Proof. repeat split; reflexivity. Qed.

Example strip_sample :
  PyStr.strip ["?"%char; " "%char] "  ? any fever? ?? " = "any fever" ∧
  PyStr.strip ["?"%char; " "%char] "any fever?." = "any fever?.".
Proof. split; reflexivity. Qed.

Example split_sample :
  PyStr.split "  do you   have any fever " = ["do"; "you"; "have"; "any"; "fever"] ∧
  PyStr.split "   " = [].
Proof. split; reflexivity. Qed.

Example normalize_sample :
  normalize "Do you have, e.g., any Fever?" = "do you have eg any fever".
Proof. reflexivity. Qed.

(** ** The one-way order *)

Section Order.

Lemma valid_tier_cases (tier : string) :
  valid_tier tier ↔ tier = "routine" ∨ tier = "urgent" ∨ tier = "emergency".
Proof.
  unfold valid_tier, tier_rank. cbn.
  destruct (String.eqb_spec "routine" tier) as [<-|Hr].
  { split; [auto | intros _; eexists; reflexivity]. }
  destruct (String.eqb_spec "urgent" tier) as [<-|Hu].
  { split; [auto | intros _; eexists; reflexivity]. }
  destruct (String.eqb_spec "emergency" tier) as [<-|He].
  { split; [auto | intros _; eexists; reflexivity]. }
  split.
  - intros [x Hx]. discriminate.
  - intros [H|[H|H]]; congruence.
Qed.

Lemma valid_level_cases (level : string) :
  valid_level level ↔ level = "none" ∨ level = "urgent" ∨ level = "critical".
Proof.
  unfold valid_level, level_rank.
  destruct (String.eqb_spec level "none") as [->|Hn].
  { split; [auto | intros _; eexists; reflexivity]. }
  destruct (String.eqb_spec level "urgent") as [->|Hu].
  { split; [auto | intros _; eexists; reflexivity]. }
  destruct (String.eqb_spec level "critical") as [->|Hc].
  { split; [auto | intros _; eexists; reflexivity]. }
  split.
  - intros [x Hx]. discriminate.
  - intros [H|[H|H]]; congruence.
Qed.

Lemma tier_le_refl (tier : string) : valid_tier tier → tier_le tier tier.
Proof. intros [x Hx]. unfold tier_le. rewrite Hx. lia. Qed.

Lemma level_le_refl (level : string) : valid_level level → level_le level level.
Proof. intros [x Hx]. unfold level_le. rewrite Hx. lia. Qed.

Lemma tier_le_trans (a b c : string) : tier_le a b → tier_le b c → tier_le a c.
Proof.
  unfold tier_le.
  destruct (tier_rank a), (tier_rank b), (tier_rank c); try tauto. lia.
Qed.

Lemma level_le_trans (a b c : string) : level_le a b → level_le b c → level_le a c.
Proof.
  unfold level_le.
  destruct (level_rank a), (level_rank b), (level_rank c); try tauto. lia.
Qed.

(** [set_urgency] on a known candidate and a known current tier: no
    [KeyError], and the assignment happens exactly on a strictly higher
    priority. *)
Lemma set_urgency_known (tier : string) (self : CaseContext) (candidate current : Z) :
  tier_rank tier = Some candidate →
  tier_rank (urgency_tier self) = Some current →
  ThreeTier.set_urgency tier self =
    Ok (if (current <? candidate)%Z then with_urgency_tier tier self else self).
Proof.
  unfold tier_rank, ThreeTier.set_urgency.
  destruct (ThreeTier.getitem ThreeTier.priority tier); [|intros [=]].
  destruct (ThreeTier.getitem ThreeTier.priority (urgency_tier self)); [|intros _ [=]].
  intros [= ->] [= ->]. by destruct (current <? candidate)%Z.
Qed.

(** A [KeyError] of [set_urgency] means the candidate or the current tier
    is not a tier name. *)
Lemma set_urgency_raises (tier : string) (self : CaseContext) (e : exn) :
  ThreeTier.set_urgency tier self = Raise e →
  e = KeyError ∧ (tier_rank tier = None ∨ tier_rank (urgency_tier self) = None).
Proof.
  unfold tier_rank, ThreeTier.set_urgency.
  assert (Hk : ∀ key e', ThreeTier.getitem ThreeTier.priority key = Raise e' → e' = KeyError).
  { intros key e'. cbn. repeat case_match; congruence. }
  destruct (ThreeTier.getitem ThreeTier.priority tier) eqn:Ht.
  - destruct (ThreeTier.getitem ThreeTier.priority (urgency_tier self)) eqn:Hc.
    + case_match; discriminate.
    + intros [= ->]. split; [by eapply Hk | by right].
  - intros [= ->]. split; [by eapply Hk | by left].
Qed.

Lemma set_urgency_step (tier : string) (self : CaseContext) :
  valid_tier (urgency_tier self) →
  valid_tier (urgency_tier (step (SetUrgency tier) self)) ∧
  tier_le (urgency_tier self) (urgency_tier (step (SetUrgency tier) self)).
Proof.
  intros Hv. cbn [step].
  destruct (tier_rank tier) as [candidate|] eqn:Ht.
  - destruct Hv as [current Hc].
    rewrite (set_urgency_known _ _ _ _ Ht Hc).
    destruct (Z.ltb_spec current candidate).
    + cbn. split; [by eexists|]. unfold tier_le. rewrite Hc, Ht. lia.
    + split; [by eexists|]. apply tier_le_refl. by eexists.
  - destruct (ThreeTier.set_urgency tier self) eqn:Hs.
    + unfold tier_rank, ThreeTier.set_urgency in *.
      destruct (ThreeTier.getitem ThreeTier.priority tier); discriminate.
    + split; [done | by apply tier_le_refl].
Qed.

(** [_calculate_severity] as the scoring followed by the escalation call
    of its score. *)
Lemma calculate_severity_unfold (text : string) (self : CaseContext) :
  _calculate_severity text self =
    let scored := with_severity (score_markers (PyStr.lower text))
                                (factor_markers (PyStr.lower text)) self in
    match escalation_for (score_markers (PyStr.lower text)) with
    | Some level => set_emergency level scored
    | None => scored
    end.
Proof.
  unfold _calculate_severity, escalation_for. cbn [severity_score with_severity].
  by repeat case_match.
Qed.

(** The only call that writes [urgency_tier] is [set_urgency]. *)
Lemma step_urgency_tier_other (op : Op) (self : CaseContext) :
  (∀ tier, op ≠ SetUrgency tier) →
  urgency_tier (step op self) = urgency_tier self.
Proof.
  intros Hop. destruct op; cbn [step]; try done.
  - by destruct (Hop tier).
  - unfold set_emergency. by repeat case_match.
  - rewrite calculate_severity_unfold. unfold set_emergency. by repeat case_match.
  - unfold validate_organ_system_consistency. by case_match.
Qed.

Lemma step_tier_monotone (op : Op) (self : CaseContext) :
  valid_tier (urgency_tier self) →
  valid_tier (urgency_tier (step op self)) ∧
  tier_le (urgency_tier self) (urgency_tier (step op self)).
Proof.
  intros Hv. destruct op as [tier| | | | | |];
    try (rewrite step_urgency_tier_other by done;
         split; [done | by apply tier_le_refl]).
  by apply set_urgency_step.
Qed.

Lemma run_snoc (ops : list Op) (op : Op) (self : CaseContext) :
  run (ops ++ [op]) self = step op (run ops self).
Proof. unfold run. by rewrite fold_left_app. Qed.

Lemma run_cons (op : Op) (ops : list Op) (self : CaseContext) :
  run (op :: ops) self = run ops (step op self).
Proof. reflexivity. Qed.

Lemma run_tier_monotone (ops : list Op) (self : CaseContext) :
  valid_tier (urgency_tier self) →
  valid_tier (urgency_tier (run ops self)) ∧
  tier_le (urgency_tier self) (urgency_tier (run ops self)).
Proof.
  revert self. induction ops as [|op ops IH]; intros self Hv.
  - split; [done | by apply tier_le_refl].
  - rewrite run_cons.
    destruct (step_tier_monotone op self Hv) as [Hv1 Hle1].
    destruct (IH _ Hv1) as [Hv2 Hle2].
    split; [done | by eapply tier_le_trans].
Qed.

Lemma level_le_closed (a b : string) (x y : Z) :
  level_rank a = Some x → level_rank b = Some y → (x <= y)%Z → level_le a b.
Proof. unfold level_le. by intros -> ->. Qed.

(** [set_emergency] never lowers a level. *)
Lemma set_emergency_monotone (level : string) (self : CaseContext) :
  valid_level (emergency_level self) →
  valid_level (emergency_level (set_emergency level self)) ∧
  level_le (emergency_level self) (emergency_level (set_emergency level self)).
Proof.
  intros Hv. unfold set_emergency.
  destruct (String.eqb_spec level "critical") as [->|Hc].
  - cbn. split; [apply valid_level_cases; auto|].
    apply valid_level_cases in Hv as [->|[->| ->]];
      eapply level_le_closed; try reflexivity; lia.
  - destruct (String.eqb_spec level "urgent") as [->|Hu]; cbn [andb].
    + destruct (String.eqb_spec (emergency_level self) "critical") as [Hcr|Hcr]; cbn [negb].
      * split; [done | by apply level_le_refl].
      * cbn. split; [apply valid_level_cases; auto|].
        apply valid_level_cases in Hv as [Hn|[Hn|Hn]]; [| |congruence];
          rewrite Hn; eapply level_le_closed; try reflexivity; lia.
    + split; [done | by apply level_le_refl].
Qed.

(** The calls that write [emergency_level] are [set_emergency] and
    [_calculate_severity], which goes through [set_emergency]. *)
Lemma step_emergency_level_other (op : Op) (self : CaseContext) :
  (∀ level, op ≠ SetEmergency level) →
  (∀ text, op ≠ CalculateSeverity text) →
  emergency_level (step op self) = emergency_level self.
Proof.
  intros Hse Hcs. destruct op; cbn [step]; try done.
  - unfold ThreeTier.set_urgency. repeat case_match; by simplify_eq.
  - by destruct (Hse level).
  - by destruct (Hcs text).
  - unfold validate_organ_system_consistency. by case_match.
Qed.

Lemma calculate_severity_level (text : string) (self : CaseContext) :
  emergency_level (_calculate_severity text self) =
    match escalation_for (score_markers (PyStr.lower text)) with
    | Some level => emergency_level (set_emergency level self)
    | None => emergency_level self
    end.
Proof.
  rewrite calculate_severity_unfold. cbn zeta.
  destruct (escalation_for _); [|done].
  unfold set_emergency. cbn [emergency_level with_severity].
  by repeat case_match.
Qed.

Lemma step_level_monotone (op : Op) (self : CaseContext) :
  valid_level (emergency_level self) →
  valid_level (emergency_level (step op self)) ∧
  level_le (emergency_level self) (emergency_level (step op self)).
Proof.
  intros Hv.
  destruct op as [| level | text | | | |];
    try (rewrite step_emergency_level_other by done;
         split; [done | by apply level_le_refl]).
  - by apply set_emergency_monotone.
  - cbn [step]. rewrite calculate_severity_level.
    destruct (escalation_for _).
    + by apply set_emergency_monotone.
    + split; [done | by apply level_le_refl].
Qed.

Lemma run_level_monotone (ops : list Op) (self : CaseContext) :
  valid_level (emergency_level self) →
  valid_level (emergency_level (run ops self)) ∧
  level_le (emergency_level self) (emergency_level (run ops self)).
Proof.
  revert self. induction ops as [|op ops IH]; intros self Hv.
  - split; [done | by apply level_le_refl].
  - rewrite run_cons.
    destruct (step_level_monotone op self Hv) as [Hv1 Hle1].
    destruct (IH _ Hv1) as [Hv2 Hle2].
    split; [done | by eapply level_le_trans].
Qed.

End Order.

(** [C1] Urgency is one-way. On a context whose tier is one of routine,
    urgent, emergency, [set_urgency] with such a candidate never raises and
    assigns the candidate exactly when its priority is strictly above the
    current one, leaving the context untouched otherwise; along every
    sequence of calls on the context, each call leaves the tier at or above
    where it found it, so the tier after the sequence is at or above the
    tier before it. The same holds of [emergency_level] under
    [set_emergency] (none < urgent < critical). *)
Theorem urgency_tier_never_lowered (self : CaseContext) :
  valid_tier (urgency_tier self) →
  (∀ candidate, valid_tier candidate →
     ∃ p_candidate p_current,
       tier_rank candidate = Some p_candidate ∧
       tier_rank (urgency_tier self) = Some p_current ∧
       ThreeTier.set_urgency candidate self =
         Ok (if (p_current <? p_candidate)%Z
             then with_urgency_tier candidate self else self)) ∧
  (∀ ops op,
     tier_le (urgency_tier (run ops self)) (urgency_tier (step op (run ops self)))) ∧
  (∀ ops, tier_le (urgency_tier self) (urgency_tier (run ops self))) ∧
  (valid_level (emergency_level self) →
   ∀ ops op,
     level_le (emergency_level (run ops self))
              (emergency_level (step op (run ops self))) ∧
     level_le (emergency_level self) (emergency_level (run ops self))).
Proof.
  intros Hv. repeat split.
  - intros candidate [p_candidate Hc]. destruct Hv as [p_current Hp].
    exists p_candidate, p_current. repeat split; try done.
    by apply set_urgency_known.
  - intros ops op. apply step_tier_monotone. by apply run_tier_monotone.
  - intros ops. by apply run_tier_monotone.
  - apply step_level_monotone. by apply run_level_monotone.
  - by apply run_level_monotone.
Qed.

Lemma urgency_tier_never_lowered_witness :
  valid_tier (urgency_tier (new_case "mild headache")) ∧
  tier_le (urgency_tier (new_case "mild headache"))
    (urgency_tier (run [SetUrgency "emergency"; SetUrgency "routine"]
                       (new_case "mild headache"))).
Proof.
  assert (Hv : valid_tier (urgency_tier (new_case "mild headache"))).
  { exists 0%Z. reflexivity. }
  split; [exact Hv|].
  exact (proj1 (proj2 (proj2 (urgency_tier_never_lowered _ Hv))) _).
Defined.

(** Scenario D of the specification: escalation to emergency, then an
    attempt to go back. *)
Example set_urgency_scenario_d :
  urgency_tier (run [SetUrgency "routine"; SetUrgency "emergency"; SetUrgency "routine"]
                    (new_case "mild headache")) = "emergency".
Proof. reflexivity. Qed.

(** ** The organ-system lock *)

Section OrganSystem.

Lemma step_organ_system_locked (op : Op) (self : CaseContext) (v : string) :
  organ_system self = Some v → organ_system (step op self) = Some v.
Proof.
  intros Hv. destruct op; cbn [step]; try done.
  - unfold ThreeTier.set_urgency. repeat case_match; by simplify_eq.
  - unfold set_emergency. by repeat case_match.
  - rewrite calculate_severity_unfold. unfold set_emergency. by repeat case_match.
  - unfold validate_organ_system_consistency. by rewrite Hv.
Qed.

Lemma run_organ_system_locked (ops : list Op) (self : CaseContext) (v : string) :
  organ_system self = Some v → organ_system (run ops self) = Some v.
Proof.
  revert self. induction ops as [|op ops IH]; intros self Hv; [done|].
  rewrite run_cons. by apply IH, step_organ_system_locked.
Qed.

End OrganSystem.

(** [C5] [validate_organ_system_consistency] assigns the candidate and
    succeeds when no organ system is set: the organ system is the candidate
    afterwards. When one is set it succeeds exactly when the candidate
    equals it, and in both outcomes leaves the context as it was. So a set
    organ system keeps its value along every sequence of calls, and after
    a first validation every later validation is judged against the first
    candidate. *)
Theorem organ_system_never_changes (self : CaseContext) (candidate : string) :
  (organ_system self = None →
   validate_organ_system_consistency candidate self =
     (true, with_organ_system (Some candidate) self) ∧
   organ_system (snd (validate_organ_system_consistency candidate self))
   = Some candidate ∧
   ∀ ops other,
     organ_system (run ops (snd (validate_organ_system_consistency candidate self)))
     = Some candidate ∧
     fst (validate_organ_system_consistency other
            (run ops (snd (validate_organ_system_consistency candidate self))))
     = bool_decide (other = candidate)) ∧
  (∀ v, organ_system self = Some v →
     validate_organ_system_consistency candidate self =
       (bool_decide (candidate = v), self)) ∧
  (∀ v ops, organ_system self = Some v → organ_system (run ops self) = Some v).
Proof.
  assert (Hset : ∀ c v other, organ_system c = Some v →
            validate_organ_system_consistency other c = (bool_decide (other = v), c)).
  { intros c v other Hv. unfold validate_organ_system_consistency. rewrite Hv.
    f_equal. destruct (String.eqb_spec v other) as [->|Hne].
    - by rewrite bool_decide_eq_true_2.
    - by rewrite bool_decide_eq_false_2. }
  repeat split.
  - unfold validate_organ_system_consistency. by rewrite H.
  - unfold validate_organ_system_consistency. by rewrite H.
  - apply run_organ_system_locked.
    unfold validate_organ_system_consistency. by rewrite H.
  - erewrite Hset; [reflexivity|].
    apply run_organ_system_locked.
    unfold validate_organ_system_consistency. by rewrite H.
  - intros v Hv. by apply Hset.
  - intros v ops. apply run_organ_system_locked.
Qed.

(** Scenario C of the specification: a cardiovascular lock, then a
    gastrointestinal candidate. *)
Example organ_system_scenario_c :
  let locked_case := snd (validate_organ_system_consistency "cardiovascular"
                            (new_case "I have chest pain radiating to my left arm")) in
  validate_organ_system_consistency "gastrointestinal" locked_case = (false, locked_case) ∧
  organ_system locked_case = Some "cardiovascular".
Proof. split; reflexivity. Qed.

(** ** Severity scoring *)

Section Severity.

(** The score and the factors as functions of the seven presence bits. *)
Lemma score_markers_presence (text_lower : string) :
  score_markers text_lower =
    (points_if (PyStr.contains "sudden" text_lower) 2
     + points_if (PyStr.contains "fever" text_lower) 1
     + points_if (PyStr.contains "headache" text_lower) 3
     + points_if (PyStr.contains "trauma" text_lower) 3
     + points_if (PyStr.contains "vomit" text_lower) 1
     + points_if (PyStr.contains "chest pain" text_lower) 3
     + points_if (PyStr.contains "can't breathe" text_lower) 2)%Z.
Proof.
  unfold score_markers, points_if.
  repeat match goal with |- context [PyStr.contains ?k text_lower] =>
    destruct (PyStr.contains k text_lower) end; reflexivity.
Qed.

Lemma score_markers_range (text_lower : string) :
  (0 <= score_markers text_lower <= 15)%Z.
Proof.
  rewrite score_markers_presence. unfold points_if.
  repeat match goal with |- context [PyStr.contains ?k text_lower] =>
    destruct (PyStr.contains k text_lower) end; lia.
Qed.

(** The factor dict holds each key once, and its points add up to the
    score. *)
Lemma factor_markers_sound (text_lower : string) :
  NoDup (map fst (factor_markers text_lower)) ∧
  total_points (factor_markers text_lower) = score_markers text_lower.
Proof.
  unfold factor_markers, score_markers.
  repeat match goal with |- context [PyStr.contains ?k text_lower] =>
    destruct (PyStr.contains k text_lower) end;
    (split; [apply (bool_decide_unpack _); vm_compute; exact I | reflexivity]).
Qed.

Lemma presence_determines (text text' : string) :
  marker_presence text' = marker_presence text →
  score_markers (PyStr.lower text') = score_markers (PyStr.lower text) ∧
  factor_markers (PyStr.lower text') = factor_markers (PyStr.lower text).
Proof.
  unfold marker_presence, markers. cbn [map].
  intros [= H1 H2 H3 H4 H5 H6 H7].
  unfold score_markers, factor_markers.
  by rewrite H1, H2, H3, H4, H5, H6, H7.
Qed.

Lemma no_marker_zero (text : string) :
  Forall (fun keyword => PyStr.contains keyword (PyStr.lower text) = false) markers →
  score_markers (PyStr.lower text) = 0%Z ∧ factor_markers (PyStr.lower text) = [].
Proof.
  unfold markers. intros H.
  repeat match goal with
  | H : Forall _ (_ :: _) |- _ => apply Forall_cons in H as [? H]
  end.
  unfold score_markers, factor_markers.
  repeat match goal with
  | E : PyStr.contains _ _ = false |- _ => rewrite E; clear E
  end.
  done.
Qed.

Lemma set_emergency_idempotent (level : string) (self : CaseContext) :
  set_emergency level (set_emergency level self) = set_emergency level self.
Proof.
  unfold set_emergency.
  destruct (String.eqb_spec level "critical") as [->|Hc]; [reflexivity|].
  destruct (String.eqb_spec level "urgent") as [->|Hu]; cbn [andb]; [|reflexivity].
  destruct (String.eqb_spec (emergency_level self) "critical") as [Hcr|Hcr];
    cbn [negb].
  - destruct (String.eqb_spec (emergency_level self) "critical"); [reflexivity|done].
  - reflexivity.
Qed.

Lemma with_severity_set_emergency (score : Z) (factors : list (string * Z))
    (level : string) (self : CaseContext) :
  with_severity score factors (set_emergency level (with_severity score factors self))
  = set_emergency level (with_severity score factors self).
Proof. unfold set_emergency. cbn. by repeat case_match. Qed.

Lemma calculate_severity_twice (text : string) (self : CaseContext) :
  _calculate_severity text (_calculate_severity text self) = _calculate_severity text self.
Proof.
  rewrite !calculate_severity_unfold. cbn zeta.
  destruct (escalation_for (score_markers (PyStr.lower text))) as [level|].
  - rewrite with_severity_set_emergency. apply set_emergency_idempotent.
  - reflexivity.
Qed.

Lemma calculate_severity_score (text : string) (self : CaseContext) :
  severity_score (_calculate_severity text self) = score_markers (PyStr.lower text) ∧
  severity_factors (_calculate_severity text self) = factor_markers (PyStr.lower text).
Proof.
  rewrite calculate_severity_unfold. cbn zeta.
  destruct (escalation_for _); [|done].
  unfold set_emergency. by repeat case_match.
Qed.

End Severity.

(** [C2] The candidate tier follows the fixed thresholds of the recomputed
    score: below 3 routine (no escalation call, the level stays), 3 to 4
    urgent, 5 and above emergency; the level after the call is the one-way
    step to that candidate, and on a session still at "none" it is the
    candidate itself. *)
Theorem severity_thresholds (text : string) (self : CaseContext) :
  let after := _calculate_severity text self in
  let score := severity_score after in
  score = score_markers (PyStr.lower text) ∧
  candidate_tier score =
    (if (score <? 3)%Z then "routine"
     else if (score <=? 4)%Z then "urgent" else "emergency") ∧
  ((score < 3)%Z → emergency_level after = emergency_level self) ∧
  ((3 <= score <= 4)%Z →
     emergency_level after = emergency_level (set_emergency "urgent" self)) ∧
  ((5 <= score)%Z → emergency_level after = "critical") ∧
  (emergency_level self = "none" →
     tier_of_level (emergency_level after) = candidate_tier score).
Proof.
  cbn zeta.
  destruct (calculate_severity_score text self) as [-> _].
  rewrite calculate_severity_level.
  set (score := score_markers (PyStr.lower text)).
  unfold candidate_tier, escalation_for.
  split; [reflexivity|].
  destruct (Z.leb_spec 5 score) as [H5|H5].
  - destruct (Z.ltb_spec score 3); [lia|]. destruct (Z.leb_spec score 4); [lia|].
    repeat split; try lia; try done.
  - destruct (Z.leb_spec 3 score) as [H3|H3].
    + destruct (Z.ltb_spec score 3); [lia|]. destruct (Z.leb_spec score 4); [|lia].
      repeat split; try lia; try done.
      intros Hn. unfold set_emergency. rewrite Hn. by eqb_closed.
    + destruct (Z.ltb_spec score 3); [|lia].
      repeat split; try lia; try done.
      intros ->. reflexivity.
Qed.

(** [C6] On "sudden severe headache and vomiting" the score is 6 (sudden
    onset 2, neurological 3, vomiting 1), which is at least 5, and the
    level after the call is critical, the emergency tier, whatever the
    context was. *)
Theorem sudden_severe_headache_and_vomiting (self : CaseContext) :
  let after := _calculate_severity "sudden severe headache and vomiting" self in
  severity_score after = 6%Z ∧
  (5 <= severity_score after)%Z ∧
  severity_factors after = [("sudden_onset", 2%Z); ("neurological", 3%Z); ("vomiting", 1%Z)] ∧
  emergency_level after = "critical" ∧
  tier_of_level (emergency_level after) = "emergency" ∧
  candidate_tier (severity_score after) = "emergency".
Proof.
  cbn zeta.
  destruct (calculate_severity_score "sudden severe headache and vomiting" self)
    as [-> ->].
  rewrite calculate_severity_level.
  assert (Hs : score_markers (PyStr.lower "sudden severe headache and vomiting") = 6%Z)
    by (vm_compute; reflexivity).
  rewrite Hs. repeat split. vm_compute. discriminate.
Qed.

(** Scenario A of the specification. *)
Example i_have_a_cough :
  severity_score (_calculate_severity "I have a cough" (new_case "I have a cough")) = 0%Z ∧
  emergency_level (_calculate_severity "I have a cough" (new_case "I have a cough")) = "none".
Proof. split; reflexivity. Qed.

(** [C7] The scorer is a function of its text alone: the score and the
    factors after a call do not depend on the context it is called on,
    calling it a second time on the same text changes nothing, and two
    texts in which the same markers occur get the same score and factors,
    however often a marker occurs. Each factor is recorded once and the
    score is the sum of the recorded points, between 0 and 15. *)
Theorem severity_scoring_idempotent (text : string) (self other : CaseContext) :
  let once := _calculate_severity text self in
  severity_score once = severity_score (_calculate_severity text other) ∧
  severity_factors once = severity_factors (_calculate_severity text other) ∧
  _calculate_severity text once = once ∧
  (∀ text', marker_presence text' = marker_presence text →
     severity_score (_calculate_severity text' self) = severity_score once ∧
     severity_factors (_calculate_severity text' self) = severity_factors once) ∧
  NoDup (map fst (severity_factors once)) ∧
  severity_score once = total_points (severity_factors once) ∧
  (0 <= severity_score once <= 15)%Z.
Proof.
  cbn zeta.
  destruct (calculate_severity_score text self) as [Hs Hf].
  destruct (calculate_severity_score text other) as [Hs' Hf'].
  rewrite Hs, Hf, Hs', Hf'.
  repeat split.
  - apply calculate_severity_twice.
  - destruct (calculate_severity_score text' self) as [-> _].
    by apply presence_determines.
  - destruct (calculate_severity_score text' self) as [_ ->].
    by apply presence_determines.
  - apply factor_markers_sound.
  - symmetry. apply factor_markers_sound.
  - apply score_markers_range.
  - apply score_markers_range.
Qed.

(** Two texts with the same markers, one of them repeating itself. *)
Example same_markers_sample :
  marker_presence "headache. Sudden headache! sudden, sudden"
  = marker_presence "sudden headache".
Proof. reflexivity. Qed.

(** A marker that occurs three times counts once. *)
Example repeated_marker_counts_once :
  severity_score (_calculate_severity "headache, headache and more headache"
                    (new_case "")) = 3%Z.
Proof. reflexivity. Qed.

(** [C8] On the empty text, and on a text in which no marker occurs, the
    scorer sets score 0 and an empty factor dict and changes nothing else:
    it is a total function and the context goes on as before. *)
Theorem empty_or_unrecognized_text_scores_zero (self : CaseContext) :
  _calculate_severity "" self = with_severity 0 [] self ∧
  (∀ text,
     Forall (fun keyword => PyStr.contains keyword (PyStr.lower text) = false) markers →
     _calculate_severity text self = with_severity 0 [] self) ∧
  severity_score (with_severity 0 [] self) = 0%Z ∧
  severity_factors (with_severity 0 [] self) = [] ∧
  emergency_level (with_severity 0 [] self) = emergency_level self ∧
  urgency_tier (with_severity 0 [] self) = urgency_tier self.
Proof.
  repeat split.
  intros text Hnone. rewrite calculate_severity_unfold.
  destruct (no_marker_zero text Hnone) as [-> ->]. reflexivity.
Qed.

(** A text without any marker. *)
Example no_marker_sample :
  Forall (fun keyword => PyStr.contains keyword (PyStr.lower "I have a cough") = false)
         markers.
Proof. repeat constructor. Qed.

(** ** Question suppression *)

Section Suppression.

Lemma critical_stays (ops : list Op) (self : CaseContext) :
  emergency_level self = "critical" →
  emergency_level (run ops self) = "critical".
Proof.
  intros Hc.
  assert (Hv : valid_level (emergency_level self)).
  { rewrite Hc. apply valid_level_cases. auto. }
  destruct (run_level_monotone ops self Hv) as [Hv' Hle].
  rewrite Hc in Hle.
  apply valid_level_cases in Hv' as [Hn|[Hn|Hn]]; [| |done];
    rewrite Hn in Hle; vm_compute in Hle; by destruct Hle.
Qed.

Lemma suppress_when_critical (self : CaseContext) :
  emergency_level self = "critical" → should_suppress_questions self = true.
Proof.
  intros Hc. unfold should_suppress_questions. rewrite Hc. eqb_closed.
  by case_match.
Qed.

(** When [should_suppress_questions] answers true. *)
Lemma should_suppress_questions_true (self : CaseContext) :
  should_suppress_questions self = true ↔
    emergency_level self = "critical" ∨
    (urgency_tier self = "emergency" ∧
     PrimFloat.ltb certainty_threshold (diagnostic_certainty self) = true).
Proof.
  unfold should_suppress_questions, ThreeTier.is_emergency.
  destruct (String.eqb_spec (urgency_tier self) "emergency") as [Ht|Ht];
    destruct (PrimFloat.ltb _ _); cbn [andb];
    destruct (String.eqb_spec (emergency_level self) "critical") as [Hl|Hl];
    split; auto; try done; intros [?|[? ?]]; done.
Qed.

End Suppression.



(** Once the level is critical, questions stay suppressed after every
    later sequence of calls, also of calls that change the certainty. *)
Example critical_level_keeps_suppressing :
  should_suppress_questions
    (run [SetCertainty 0%float; CalculateSeverity "feeling a bit better"]
         (set_emergency "critical" (new_case "chest pain"))) = true.
Proof.
  apply suppress_when_critical, critical_stays. reflexivity.
Qed.

(** ** Redundant question elimination *)

Section Questions.

(** On the lengths a question can have, the binary64 test of the code is
    the exact test "more than 70 percent". *)
Lemma ratio_agrees_up_to_200 : ratio_agrees_up_to 200 = true.
Proof. vm_compute. reflexivity. Qed.

Lemma forallb_seq (f : nat → bool) (start len x : nat) :
  forallb f (seq start len) = true → start ≤ x < start + len → f x = true.
Proof.
  intros Hall Hx. rewrite forallb_forall in Hall. apply Hall, in_seq. lia.
Qed.

Lemma ratio_agrees_inv (bound a b : nat) :
  ratio_agrees_up_to bound = true → a ≤ b → 1 ≤ b ≤ bound →
  ratio_above_threshold a b = exceeds_seventy_percent a b.
Proof.
  unfold ratio_agrees_up_to. intros Hall Hab Hb.
  apply (forallb_seq _ 1 bound b) in Hall; [|lia].
  apply (forallb_seq _ 0 (S b) a) in Hall; [|lia].
  by apply Bool.eqb_prop.
Qed.

Lemma ratio_above_threshold_exact (a b : nat) :
  a ≤ b → 1 ≤ b ≤ 200 →
  ratio_above_threshold a b = exceeds_seventy_percent a b.
Proof. apply ratio_agrees_inv, ratio_agrees_up_to_200. Qed.

Lemma loop_without_words (normalized : string) (pending : list string) :
  size (word_set normalized) = 0 →
  similar_question_loop normalized pending =
    match pending with
    | [] => Ok false
    | _ :: _ => Raise ZeroDivisionError
    end.
Proof. intros Hz. destruct pending; cbn; [done|]. by rewrite Hz. Qed.

Lemma loop_with_words (normalized : string) (pending : list string) :
  size (word_set normalized) ≠ 0 →
  similar_question_loop normalized pending =
    Ok (existsb (fun asked =>
          ratio_above_threshold (size (word_set asked ∩ word_set normalized))
                                (size (word_set normalized))) pending).
Proof.
  intros Hnz. induction pending as [|asked rest IH]; cbn; [done|].
  destruct (Nat.eqb_spec (size (word_set normalized)) 0) as [|_]; [done|].
  rewrite IH. by case_match.
Qed.

(** When [is_question_asked] answers true. *)
Lemma is_question_asked_true (question : string) (self : CaseContext) :
  is_question_asked question self = Ok true ↔
    normalize question ∈ asked_questions self ∨
    (word_set (normalize question) ≠ ∅ ∧
     ∃ asked, asked ∈ asked_questions self ∧
       ratio_above_threshold
         (size (word_set asked ∩ word_set (normalize question)))
         (size (word_set (normalize question))) = true).
Proof.
  unfold is_question_asked. cbn zeta.
  set (normalized := normalize question).
  destruct (decide (normalized ∈ asked_questions self)) as [Hin|Hout].
  { rewrite bool_decide_eq_true_2 by done. split; auto. }
  rewrite bool_decide_eq_false_2 by done.
  destruct (decide (size (word_set normalized) = 0)) as [Hz|Hnz].
  - rewrite loop_without_words by done.
    apply size_empty_iff, leibniz_equiv in Hz.
    split.
    + by destruct (elements (asked_questions self)).
    + intros [Hin|[Hne _]]; done.
  - rewrite loop_with_words by done. split.
    + intros [= Hex]. right. split.
      * intros He. apply Hnz. rewrite He. apply size_empty.
      * apply existsb_exists in Hex as (asked & Hin & Hr).
        exists asked. split; [|done].
        by apply elem_of_elements, list_elem_of_In.
    + intros [Hin|(_ & asked & Hin & Hr)]; [done|].
      f_equal. apply existsb_exists. exists asked. split; [|done].
      by apply list_elem_of_In, elem_of_elements.
Qed.

(** The rule in exact terms, for a new question of at most 200 distinct
    words: true on the exact normalized match, or when some stored
    question shares more than 70 percent of the new question's words. *)
Lemma is_question_asked_seventy_percent (question : string) (self : CaseContext) :
  size (word_set (normalize question)) ≤ 200 →
  (is_question_asked question self = Ok true ↔
     normalize question ∈ asked_questions self ∨
     ∃ asked, asked ∈ asked_questions self ∧
       7 * size (word_set (normalize question))
       < 10 * size (word_set asked ∩ word_set (normalize question))).
Proof.
  intros Hsize. rewrite is_question_asked_true.
  set (new_words := word_set (normalize question)) in *.
  assert (Hsub : ∀ asked, size (word_set asked ∩ new_words) ≤ size new_words).
  { intros asked. apply subseteq_size, intersection_subseteq_r. }
  split.
  - intros [Hin|(Hne & asked & Hin & Hr)]; [by left|].
    right. exists asked. split; [done|].
    rewrite ratio_above_threshold_exact in Hr.
    + by apply Nat.ltb_lt in Hr.
    + apply Hsub.
    + split; [|done].
      assert (size new_words ≠ 0); [|lia].
      by apply size_non_empty_iff; intros ?%leibniz_equiv.
  - intros [Hin|(asked & Hin & Hr)]; [by left|].
    right. pose proof (Hsub asked).
    assert (Hpos : size new_words ≠ 0) by lia.
    split.
    + intros He. apply Hpos. rewrite He. apply size_empty.
    + exists asked. split; [done|].
      rewrite ratio_above_threshold_exact by (try apply Hsub; lia).
      by apply Nat.ltb_lt.
Qed.

End Questions.

(** [C4] After [track_question "Did you experience any trauma?"] the call
    [is_question_asked "Have you had any recent trauma?"] returns false:
    the stored form is "did you experience any trauma", the new form is
    "have you had any recent trauma", they share 3 of the 6 new words
    (you, any, trauma), and 3/6 is not above 0.7. The same holds with the
    three stored questions of the documented example. *)
Theorem rephrased_trauma_question_not_detected :
  let asked_once :=
    track_question "Did you experience any trauma?" (new_case "I have a severe headache") in
  let asked_thrice :=
    track_question "Do you have any fever?"
      (track_question "How long have you had this headache?" asked_once) in
  normalize "Did you experience any trauma?" = "did you experience any trauma" ∧
  normalize "Have you had any recent trauma?" = "have you had any recent trauma" ∧
  size (word_set "did you experience any trauma"
        ∩ word_set "have you had any recent trauma") = 3 ∧
  size (word_set "have you had any recent trauma") = 6 ∧
  is_question_asked "Have you had any recent trauma?" asked_once = Ok false ∧
  is_question_asked "Have you had any recent trauma?" asked_thrice = Ok false.
Proof. cbn zeta. repeat split; vm_compute; reflexivity. Qed.

(** The exact match and a close rephrasing are detected. *)
Example repeated_question_detected :
  let asked_once :=
    track_question "Did you experience any trauma?" (new_case "I have a severe headache") in
  is_question_asked "did you experience any trauma" asked_once = Ok true ∧
  is_question_asked "Did you experience any head trauma?" asked_once = Ok true.
Proof. cbn zeta. split; vm_compute; reflexivity. Qed.

(** [C10] A question whose normalized form has no word, asked while some
    question is stored, raises [ZeroDivisionError] when that normalized form
    is not itself stored, and returns true on the exact match when it is. *)
Theorem wordless_question_raises (question : string) (self : CaseContext) :
  word_set (normalize question) = ∅ →
  asked_questions self ≠ ∅ →
  (normalize question ∉ asked_questions self →
     is_question_asked question self = Raise ZeroDivisionError) ∧
  (normalize question ∈ asked_questions self →
     is_question_asked question self = Ok true).
Proof.
  intros Hw Hne. unfold is_question_asked. cbn zeta. split.
  - intros Hout. rewrite bool_decide_eq_false_2 by done.
    rewrite loop_without_words by (rewrite Hw; apply size_empty).
    destruct (elements (asked_questions self)) eqn:He; [|done].
    destruct Hne. by apply leibniz_equiv, elements_empty_iff.
  - intros Hin. by rewrite bool_decide_eq_true_2.
Qed.

Lemma wordless_question_raises_witness :
  word_set (normalize "...") = ∅ ∧
  asked_questions (track_question "Do you have any fever?" (new_case "")) ≠ ∅ ∧
  is_question_asked "..." (track_question "Do you have any fever?" (new_case ""))
    = Raise ZeroDivisionError.
Proof.
  assert (Hne : asked_questions (track_question "Do you have any fever?" (new_case "")) ≠ ∅).
  { apply (bool_decide_unpack _). vm_compute. exact I. }
  split; [reflexivity|]. split; [exact Hne|].
  apply (wordless_question_raises "..."
           (track_question "Do you have any fever?" (new_case ""))
           eq_refl Hne).
  apply (bool_decide_unpack _). vm_compute. exact I.
Defined.

(** The claim as first stated fails on the exact match: the stored
    question "?" and the new question "" both normalize to the empty
    string, a question is stored, and the call returns true. *)
Lemma wordless_question_exact_match_counterexample :
  let self := track_question "?" (new_case "") in
  word_set (normalize "") = ∅ ∧
  asked_questions self ≠ ∅ ∧
  is_question_asked "" self = Ok true ∧
  is_question_asked "" self ≠ Raise ZeroDivisionError.
Proof.
  cbn zeta. repeat split.
  - apply (bool_decide_unpack _). vm_compute. exact I.
  - vm_compute. discriminate.
Qed.

(** ** The chat page *)

Section ChatGuard.

Import Chat.

Lemma is_emergency_tier_true (tier : option string) :
  is_emergency_tier tier = true ↔ tier = Some "emergency".
Proof.
  destruct tier as [t|]; cbn; [|done].
  destruct (String.eqb_spec t "emergency") as [->|Hne]; [done|].
  split; [done | congruence].
Qed.

(** The guard of [handleSend]. *)
Lemma handleSend_emergency (env : SendEnv) (st : State) :
  urgencyTier st = Some "emergency" → handleSend env st = st.
Proof.
  intros Ht. unfold handleSend.
  replace (is_emergency_tier (urgencyTier st)) with true
    by (symmetry; by apply is_emergency_tier_true).
  by rewrite orb_true_r.
Qed.

Lemma react_keeps_emergency (ev : Event) (st : State) :
  keeps_emergency ev = true →
  urgencyTier st = Some "emergency" →
  urgencyTier (react ev st) = Some "emergency" ∧ sent (react ev st) = sent st.
Proof.
  intros Hk Ht. destruct ev as [v|env|clock o|clock|id]; cbn [react].
  - done.
  - by rewrite handleSend_emergency.
  - destruct o as [|tier response]; cbn; [done|].
    split; [|done]. cbn in Hk.
    destruct (truthy tier); [|done].
    by apply is_emergency_tier_true.
  - done.
  - unfold selectSession. by case_match.
Qed.

Lemma replay_keeps_emergency (evs : list Event) (st : State) :
  forallb keeps_emergency evs = true →
  urgencyTier st = Some "emergency" →
  urgencyTier (replay evs st) = Some "emergency" ∧ sent (replay evs st) = sent st.
Proof.
  revert st. induction evs as [|ev evs IH]; intros st Hk Ht; [done|].
  cbn in Hk. apply andb_true_iff in Hk as [Hev Hevs].
  destruct (react_keeps_emergency ev st Hev Ht) as [Ht1 Hs1].
  destruct (IH (react ev st) Hevs Ht1) as [Ht2 Hs2].
  split; [done | by rewrite <- Hs1].
Qed.

End ChatGuard.

(** [C9] While the displayed urgency tier is emergency, [handleSend]
    returns without sending and leaves the page as it is, and the input
    area of an active session is the disabled notice; the displayed tier
    stays emergency and no request is made along every sequence of events
    that holds neither a new assessment nor a response carrying another
    tier. *)
Theorem emergency_blocks_sending (st : Chat.State) :
  Chat.urgencyTier st = Some "emergency" →
  (∀ env, Chat.handleSend env st = st) ∧
  (Chat.truthy (Chat.activeSessionId st) = true →
     Chat.input_area st = Chat.DisabledNotice) ∧
  (∀ evs, forallb Chat.keeps_emergency evs = true →
     Chat.urgencyTier (Chat.replay evs st) = Some "emergency" ∧
     Chat.sent (Chat.replay evs st) = Chat.sent st ∧
     Chat.submitted_since st (Chat.replay evs st) = []).
Proof.
  intros Ht. repeat split.
  - intros env. by apply handleSend_emergency.
  - intros Ha. unfold Chat.input_area. rewrite Ha, Ht. reflexivity.
  - by apply replay_keeps_emergency.
  - by apply replay_keeps_emergency.
  - unfold Chat.submitted_since.
    destruct (replay_keeps_emergency evs st) as [_ ->]; [done..|].
    apply drop_all.
Qed.

Lemma emergency_blocks_sending_witness :
  let shown :=
    Chat.replay
      [Chat.NewSession "1001"; Chat.Typed "crushing chest pain";
       Chat.Send {| Chat.now := "1002"; Chat.savedProfile := Chat.NoProfile;
                    Chat.uid := None |};
       Chat.Arrived "1003" (Chat.Data (Some "emergency") "Call 911 immediately.")]
      Chat.initial in
  Chat.urgencyTier shown = Some "emergency" ∧
  Chat.input_area shown = Chat.DisabledNotice ∧
  Chat.submitted_since shown
    (Chat.replay
       [Chat.Typed "is it serious?";
        Chat.Send {| Chat.now := "1004"; Chat.savedProfile := Chat.NoProfile;
                     Chat.uid := None |}]
       shown) = [].
Proof.
  cbn zeta.
  match goal with |- Chat.urgencyTier ?s = _ ∧ _ =>
    pose proof (emergency_blocks_sending s eq_refl) as (_ & Harea & Hevs)
  end.
  split; [reflexivity|]. split; [exact (Harea eq_refl)|].
  match goal with |- Chat.submitted_since _ (Chat.replay ?evs _) = _ =>
    exact (proj2 (proj2 (Hevs evs eq_refl)))
  end.
Defined.

(** The claim as first stated fails for the session: after the emergency
    tier is displayed for session "1001", a new assessment resets the
    displayed tier, the side panel selects session "1001" again without
    restoring it, and the next message is submitted for that session. *)
Lemma emergency_session_reselected_counterexample :
  let shown :=
    Chat.replay
      [Chat.NewSession "1001"; Chat.Typed "crushing chest pain";
       Chat.Send {| Chat.now := "1002"; Chat.savedProfile := Chat.NoProfile;
                    Chat.uid := None |};
       Chat.Arrived "1003" (Chat.Data (Some "emergency") "Call 911 immediately.")]
      Chat.initial in
  let later :=
    Chat.replay
      [Chat.NewSession "1004"; Chat.Selected "1001"; Chat.Typed "it still hurts";
       Chat.Send {| Chat.now := "1005"; Chat.savedProfile := Chat.NoProfile;
                    Chat.uid := None |}]
      shown in
  Chat.urgencyTier shown = Some "emergency" ∧
  Chat.activeSessionId shown = Some "1001" ∧
  Chat.submitted_since shown later =
    [[("message", "it still hurts"); ("session_id", "1001");
      ("user_id", "anonymous"); ("include_voice", "false")]] ∧
  Chat.session_of <$> Chat.submitted_since shown later = [Some "1001"].
Proof. cbn zeta. repeat split; vm_compute; reflexivity. Qed.

(** * Further properties of the case context *)

Section Setters.

Lemma tier_rank_names (tier : string) (rank : Z) :
  tier_rank tier = Some rank ↔
    (tier = "routine" ∧ rank = 0%Z) ∨ (tier = "urgent" ∧ rank = 1%Z)
    ∨ (tier = "emergency" ∧ rank = 2%Z).
Proof.
  unfold tier_rank. cbn.
  destruct (String.eqb_spec "routine" tier) as [<-|Hr].
  { split; [intros [= <-]; auto | intros [[_ ->]|[[[=] _]|[[=] _]]]; done]. }
  destruct (String.eqb_spec "urgent" tier) as [<-|Hu].
  { split; [intros [= <-]; auto | intros [[[=] _]|[[_ ->]|[[=] _]]]; done]. }
  destruct (String.eqb_spec "emergency" tier) as [<-|He].
  { split; [intros [= <-]; auto | intros [[[=] _]|[[[=] _]|[_ ->]]]; done]. }
  split; [done|]. intros [[-> _]|[[-> _]|[-> _]]]; done.
Qed.

Lemma tier_rank_inj (a b : string) (rank : Z) :
  tier_rank a = Some rank → tier_rank b = Some rank → a = b.
Proof.
  intros Ha Hb. apply tier_rank_names in Ha, Hb.
  destruct Ha as [[-> ->]|[[-> ->]|[-> ->]]];
    destruct Hb as [[-> ?]|[[-> ?]|[-> ?]]]; done.
Qed.

(** One call of [set_urgency] as a step of the session. *)
Lemma step_set_urgency (tier : string) (self : CaseContext) :
  step (SetUrgency tier) self =
    match tier_rank tier, tier_rank (urgency_tier self) with
    | Some candidate, Some current =>
        if (current <? candidate)%Z then with_urgency_tier tier self else self
    | _, _ => self
    end.
Proof.
  cbn [step]. unfold tier_rank, ThreeTier.set_urgency.
  destruct (ThreeTier.getitem ThreeTier.priority tier); [|done].
  destruct (ThreeTier.getitem ThreeTier.priority (urgency_tier self)) as [current|];
    [|done].
  by destruct (current <? _)%Z.
Qed.

Lemma step_set_urgency_rank (tier : string) (self : CaseContext) (current : Z) :
  tier_rank (urgency_tier self) = Some current →
  tier_rank (urgency_tier (step (SetUrgency tier) self)) =
    Some (match tier_rank tier with
          | Some rank => Z.max current rank
          | None => current
          end).
Proof.
  intros Hc. rewrite step_set_urgency, Hc.
  destruct (tier_rank tier) as [rank|] eqn:Ht; [|done].
  destruct (Z.ltb_spec current rank).
  - cbn. rewrite Ht. f_equal. lia.
  - rewrite Hc. f_equal. lia.
Qed.

Lemma set_urgency_commutes (a b : string) (self : CaseContext) :
  step (SetUrgency a) (step (SetUrgency b) self)
  = step (SetUrgency b) (step (SetUrgency a) self).
Proof.
  rewrite (step_set_urgency b self), (step_set_urgency a self).
  destruct (tier_rank a) as [ra|] eqn:Ha, (tier_rank b) as [rb|] eqn:Hb,
    (tier_rank (urgency_tier self)) as [rc|] eqn:Hc;
    try (rewrite !step_set_urgency, ?Ha, ?Hb, ?Hc; reflexivity).
  destruct (Z.ltb_spec rc rb), (Z.ltb_spec rc ra);
    rewrite !step_set_urgency; cbn [urgency_tier with_urgency_tier];
    rewrite ?Ha, ?Hb, ?Hc.
  - destruct (Z.ltb_spec rb ra), (Z.ltb_spec ra rb); try lia; try reflexivity.
    assert (ra = rb) as -> by lia. by rewrite (tier_rank_inj a b rb).
  - destruct (Z.ltb_spec rb ra), (Z.ltb_spec rc rb); try lia; reflexivity.
  - destruct (Z.ltb_spec rc ra), (Z.ltb_spec ra rb); try lia; reflexivity.
  - destruct (Z.ltb_spec rc ra), (Z.ltb_spec rc rb); try lia; reflexivity.
Qed.

Lemma set_urgency_idempotent (a : string) (self : CaseContext) :
  step (SetUrgency a) (step (SetUrgency a) self) = step (SetUrgency a) self.
Proof.
  rewrite (step_set_urgency a self).
  destruct (tier_rank a) as [ra|] eqn:Ha,
    (tier_rank (urgency_tier self)) as [rc|] eqn:Hc;
    try (rewrite step_set_urgency, ?Ha, ?Hc; reflexivity).
  destruct (Z.ltb_spec rc ra); rewrite step_set_urgency;
    cbn [urgency_tier with_urgency_tier]; rewrite Ha, ?Hc.
  - by rewrite Z.ltb_irrefl.
  - by destruct (Z.ltb_spec rc ra); [lia|].
Qed.

Lemma set_emergency_commutes (a b : string) (self : CaseContext) :
  set_emergency a (set_emergency b self) = set_emergency b (set_emergency a self).
Proof.
  unfold set_emergency.
  destruct (String.eqb_spec a "critical") as [->|Ha];
    destruct (String.eqb_spec b "critical") as [->|Hb];
    try reflexivity; cbn [emergency_level with_emergency_level]; eqb_closed;
    rewrite ?andb_false_r; cbn [andb negb].
  - by repeat case_match.
  - by repeat case_match.
  - destruct (String.eqb_spec a "urgent") as [->|Hau];
      destruct (String.eqb_spec b "urgent") as [->|Hbu]; cbn [andb];
      try reflexivity;
      destruct (String.eqb_spec (emergency_level self) "critical"); cbn [negb];
      cbn [emergency_level with_emergency_level]; eqb_closed;
      repeat match goal with
      | |- context [String.eqb ?x ?y] => destruct (String.eqb_spec x y)
      end; cbn; try done.
Qed.

End Setters.

(** [X1] [set_urgency] raises [KeyError], and nothing else, exactly when
    the candidate or the current tier is not one of the three tier names;
    in particular the level names "none" and "critical" of the first
    revision are rejected. *)
Theorem set_urgency_key_error (tier : string) (self : CaseContext) :
  (ThreeTier.set_urgency tier self = Raise KeyError ↔
     ¬ valid_tier tier ∨ ¬ valid_tier (urgency_tier self)) ∧
  (∀ e, ThreeTier.set_urgency tier self = Raise e → e = KeyError) ∧
  ThreeTier.set_urgency "none" self = Raise KeyError ∧
  ThreeTier.set_urgency "critical" self = Raise KeyError.
Proof.
  repeat split.
  - intros Hr. apply set_urgency_raises in Hr as [_ [Hn|Hn]].
    + left. intros [x Hx]. congruence.
    + right. intros [x Hx]. congruence.
  - intros Hinv.
    destruct (tier_rank tier) as [candidate|] eqn:Ht.
    + destruct (tier_rank (urgency_tier self)) as [current|] eqn:Hc.
      * destruct Hinv as [Hinv|Hinv]; destruct Hinv; by eexists.
      * unfold tier_rank, ThreeTier.set_urgency in *.
        destruct (ThreeTier.getitem ThreeTier.priority tier); [|done].
        destruct (ThreeTier.getitem ThreeTier.priority (urgency_tier self)) eqn:Hg;
          [done|].
        f_equal. revert Hg. cbn. repeat case_match; congruence.
    + unfold tier_rank, ThreeTier.set_urgency in *.
      destruct (ThreeTier.getitem ThreeTier.priority tier) eqn:Hg; [done|].
      f_equal. revert Hg. cbn. repeat case_match; congruence.
  - intros e He. by apply set_urgency_raises in He as [-> _].
Qed.

(** [X2] The order of two escalation calls does not matter and repeating a
    call changes nothing, for [set_urgency] (a raising call counted as no
    change) and for [set_emergency], whatever the arguments. *)
Theorem escalation_calls_commute (a b : string) (self : CaseContext) :
  step (SetUrgency a) (step (SetUrgency b) self)
  = step (SetUrgency b) (step (SetUrgency a) self) ∧
  step (SetUrgency a) (step (SetUrgency a) self) = step (SetUrgency a) self ∧
  set_emergency a (set_emergency b self) = set_emergency b (set_emergency a self) ∧
  set_emergency a (set_emergency a self) = set_emergency a self.
Proof.
  repeat split.
  - apply set_urgency_commutes.
  - apply set_urgency_idempotent.
  - apply set_emergency_commutes.
  - apply set_emergency_idempotent.
Qed.

(** [X3] After any sequence of [set_urgency] calls the tier is the highest
    one among the starting tier and the candidates that are tier names;
    candidates that are not are ignored. *)
Theorem highest_requested_tier_wins (candidates : list string)
    (self : CaseContext) (current : Z) :
  tier_rank (urgency_tier self) = Some current →
  tier_rank (urgency_tier (run (SetUrgency <$> candidates) self))
  = Some (highest_rank current candidates).
Proof.
  revert self current.
  induction candidates as [|tier rest IH]; intros self current Hc; [done|].
  cbn [fmap list_fmap]. rewrite run_cons.
  erewrite IH; [|by apply step_set_urgency_rank]. reflexivity.
Qed.

Lemma highest_requested_tier_wins_witness :
  tier_rank (urgency_tier (new_case "mild headache")) = Some 0%Z ∧
  tier_rank (urgency_tier
     (run (SetUrgency <$> ["urgent"; "critical"; "emergency"; "routine"])
          (new_case "mild headache"))) = Some 2%Z.
Proof.
  split; [reflexivity|].
  exact (highest_requested_tier_wins
           ["urgent"; "critical"; "emergency"; "routine"]
           (new_case "mild headache") 0%Z eq_refl).
Defined.

(** [X4] The two revisions agree: on a context whose tier is the tier name
    of its level, [set_urgency] with the tier name of a level succeeds and
    leaves the tier that is the tier name of the level [set_emergency]
    leaves; a level name that [set_emergency] ignores is a routine
    candidate. *)
Theorem set_emergency_matches_set_urgency (level : string) (self : CaseContext) :
  valid_level (emergency_level self) →
  urgency_tier self = tier_of_level (emergency_level self) →
  ∃ self', ThreeTier.set_urgency (tier_of_level level) self = Ok self' ∧
    urgency_tier self' = tier_of_level (emergency_level (set_emergency level self)).
Proof.
  intros Hv Ht.
  assert (Hcases : ∀ current candidate,
    tier_rank (urgency_tier self) = Some current →
    tier_rank (tier_of_level level) = Some candidate →
    urgency_tier (if (current <? candidate)%Z
                  then with_urgency_tier (tier_of_level level) self else self)
    = tier_of_level (emergency_level (set_emergency level self)) →
    ∃ self', ThreeTier.set_urgency (tier_of_level level) self = Ok self' ∧
      urgency_tier self' = tier_of_level (emergency_level (set_emergency level self))).
  { intros current candidate Hcur Hcand Heq.
    rewrite (set_urgency_known _ _ _ _ Hcand Hcur). by eexists. }
  unfold set_emergency in *.
  destruct (String.eqb_spec level "critical") as [->|Hc].
  - apply valid_level_cases in Hv as [Hl|[Hl|Hl]];
      (eapply Hcases;
       [rewrite Ht, Hl; reflexivity | reflexivity
       | cbn -[tier_of_level]; rewrite ?Ht, ?Hl; reflexivity]).
  - destruct (String.eqb_spec level "urgent") as [->|Hu]; cbn [andb] in *.
    + apply valid_level_cases in Hv as [Hl|[Hl|Hl]];
        (eapply Hcases;
         [rewrite Ht, Hl; reflexivity | reflexivity
         | rewrite Hl; eqb_closed;
           cbn -[tier_of_level]; rewrite ?Ht, ?Hl; reflexivity]).
    + assert (Hroutine : tier_of_level level = "routine").
      { unfold tier_of_level.
        destruct (String.eqb_spec level "critical"); [done|].
        by destruct (String.eqb_spec level "urgent"). }
      apply valid_level_cases in Hv as [Hl|[Hl|Hl]];
        (eapply Hcases;
         [rewrite Ht, Hl; reflexivity | rewrite Hroutine; reflexivity
         | rewrite Hroutine; cbn -[tier_of_level]; rewrite ?Ht, ?Hl; reflexivity]).
Qed.

Lemma set_emergency_matches_set_urgency_witness :
  valid_level (emergency_level (new_case "mild headache")) ∧
  urgency_tier (new_case "mild headache")
  = tier_of_level (emergency_level (new_case "mild headache")) ∧
  ∃ self', ThreeTier.set_urgency (tier_of_level "critical") (new_case "mild headache")
           = Ok self' ∧
    urgency_tier self'
    = tier_of_level (emergency_level (set_emergency "critical" (new_case "mild headache"))).
Proof.
  assert (Hv : valid_level (emergency_level (new_case "mild headache"))).
  { exists 0%Z. reflexivity. }
  split; [exact Hv|]. split; [reflexivity|].
  exact (set_emergency_matches_set_urgency "critical" (new_case "mild headache")
           Hv eq_refl).
Defined.

(** [X5] The predicates [is_routine], [is_urgent] and [is_emergency] of the
    three-tier revision never hold together, and one of them holds exactly
    when the tier is a tier name. *)
Theorem tier_predicates_partition (self : CaseContext) :
  (valid_tier (urgency_tier self) ↔
     ThreeTier.is_routine self || ThreeTier.is_urgent self
     || ThreeTier.is_emergency self = true) ∧
  ThreeTier.is_routine self && ThreeTier.is_urgent self = false ∧
  ThreeTier.is_routine self && ThreeTier.is_emergency self = false ∧
  ThreeTier.is_urgent self && ThreeTier.is_emergency self = false.
Proof.
  unfold ThreeTier.is_routine, ThreeTier.is_urgent, ThreeTier.is_emergency.
  rewrite valid_tier_cases.
  destruct (String.eqb_spec (urgency_tier self) "routine") as [Hr|Hr];
  destruct (String.eqb_spec (urgency_tier self) "urgent") as [Hu|Hu];
  destruct (String.eqb_spec (urgency_tier self) "emergency") as [He|He];
    try congruence; cbn; repeat split; try done; auto;
    intros [?|[?|?]]; done.
Qed.

(** [X6] Once [is_emergency] of the three-tier revision holds, it holds
    after every later sequence of calls, and the response built from the
    context carries [emergency = True] and the tier "emergency" under both
    of its keys. *)
Theorem emergency_flag_persists (self : CaseContext) (ops : list Op)
    (ai_response session : string) :
  ThreeTier.is_emergency self = true →
  ThreeTier.is_emergency (run ops self) = true ∧
  ApiResponse.emergency (result_of (run ops self) ai_response session) = true ∧
  ApiResponse.urgency_tier (result_of (run ops self) ai_response session) = "emergency" ∧
  ApiResponse.emergency_level (result_of (run ops self) ai_response session) = "emergency".
Proof.
  unfold ThreeTier.is_emergency. intros He%String.eqb_eq.
  assert (Hv : valid_tier (urgency_tier self)).
  { rewrite He. apply valid_tier_cases. auto. }
  destruct (run_tier_monotone ops self Hv) as [Hv' Hle].
  assert (Hfinal : urgency_tier (run ops self) = "emergency").
  { rewrite He in Hle.
    apply valid_tier_cases in Hv' as [Hn|[Hn|Hn]]; [| |done];
      rewrite Hn in Hle; vm_compute in Hle; by destruct Hle. }
  repeat split; cbn -[run]; unfold ThreeTier.is_emergency; rewrite ?Hfinal;
    by eqb_closed.
Qed.

Lemma emergency_flag_persists_witness :
  ThreeTier.is_emergency (with_urgency_tier "emergency" (new_case "chest pain")) = true ∧
  ThreeTier.is_emergency
    (run [SetUrgency "routine"; CalculateSeverity "feeling a bit better"]
         (with_urgency_tier "emergency" (new_case "chest pain"))) = true.
Proof.
  split; [reflexivity|].
  exact (proj1 (emergency_flag_persists
                  (with_urgency_tier "emergency" (new_case "chest pain"))
                  [SetUrgency "routine"; CalculateSeverity "feeling a bit better"]
                  "" "" eq_refl)).
Defined.

(** ** The question store *)

Section QuestionStore.

Lemma step_asked_questions (op : Op) (self : CaseContext) :
  asked_questions self ⊆ asked_questions (step op self).
Proof.
  destruct op; cbn [step]; try done.
  - unfold ThreeTier.set_urgency. repeat case_match; by simplify_eq.
  - unfold set_emergency. by repeat case_match.
  - rewrite calculate_severity_unfold. unfold set_emergency. by repeat case_match.
  - unfold validate_organ_system_consistency. by case_match.
  - cbn. set_solver.
Qed.

Lemma run_asked_questions (ops : list Op) (self : CaseContext) :
  asked_questions self ⊆ asked_questions (run ops self).
Proof.
  revert self. induction ops as [|op ops IH]; intros self; [done|].
  rewrite run_cons. etrans; [apply step_asked_questions | apply IH].
Qed.

Lemma lower_char_idempotent (c : ascii) :
  PyStr.lower_char (PyStr.lower_char c) = PyStr.lower_char c.
Proof. destruct c as [[] [] [] [] [] [] [] []]; reflexivity. Qed.

Lemma lower_idempotent (s : string) : PyStr.lower (PyStr.lower s) = PyStr.lower s.
Proof.
  induction s as [|c s IH]; [done|]. cbn. by rewrite lower_char_idempotent, IH.
Qed.

Lemma append_cons (c : ascii) (s t : string) :
  String c s +:+ t = String c (s +:+ t).
Proof. reflexivity. Qed.

Lemma append_empty (t : string) : "" +:+ t = t.
Proof. reflexivity. Qed.

Lemma lower_app (s t : string) :
  PyStr.lower (s +:+ t) = PyStr.lower s +:+ PyStr.lower t.
Proof.
  induction s as [|c s IH]; [done|].
  rewrite append_cons. cbn. by rewrite IH, append_cons.
Qed.

Lemma rstrip_snoc (chars : list ascii) (s : string) (c : ascii) :
  PyStr.mem_char c chars = true →
  PyStr.rstrip chars (s +:+ String c "") = PyStr.rstrip chars s.
Proof.
  intros Hc. induction s as [|a s IH].
  - rewrite append_empty. cbn. by rewrite Hc.
  - rewrite append_cons. cbn. by rewrite IH.
Qed.

Lemma lstrip_snoc (chars : list ascii) (s : string) (c : ascii) :
  PyStr.mem_char c chars = true →
  PyStr.lstrip chars (s +:+ String c "") = PyStr.lstrip chars s +:+ String c ""
  ∨ (PyStr.lstrip chars s = "" ∧ PyStr.lstrip chars (s +:+ String c "") = "").
Proof.
  intros Hc. induction s as [|a s IH].
  - right. rewrite append_empty. cbn. by rewrite Hc.
  - rewrite append_cons. cbn.
    destruct (PyStr.mem_char a chars); [done | by left].
Qed.

Lemma strip_snoc (chars : list ascii) (s : string) (c : ascii) :
  PyStr.mem_char c chars = true →
  PyStr.strip chars (s +:+ String c "") = PyStr.strip chars s.
Proof.
  intros Hc. unfold PyStr.strip.
  destruct (lstrip_snoc chars s c Hc) as [->|[-> ->]]; [|done].
  by apply rstrip_snoc.
Qed.

End QuestionStore.



(** [X10] On a question of ASCII text, [is_question_asked] raises only
    [ZeroDivisionError], and exactly when the normalized question has no
    word, some question is stored and the normalized question is not itself
    stored; with nothing stored it returns false. *)
Theorem is_question_asked_raises_iff (question : string) (self : CaseContext) :
  is_ascii_text question = true →
  (∀ e, is_question_asked question self = Raise e ↔
     e = ZeroDivisionError ∧
     word_set (normalize question) = ∅ ∧
     asked_questions self ≠ ∅ ∧
     normalize question ∉ asked_questions self) ∧
  (asked_questions self = ∅ → is_question_asked question self = Ok false).
Proof.
  intros _. split.
  - intros e. unfold is_question_asked. cbn zeta.
    set (normalized := normalize question).
    destruct (decide (normalized ∈ asked_questions self)) as [Hin|Hout].
    { rewrite bool_decide_eq_true_2 by done. split; [done | by intros (_ & _ & _ & ?)]. }
    rewrite bool_decide_eq_false_2 by done.
    destruct (decide (size (word_set normalized) = 0)) as [Hz|Hnz].
    + rewrite loop_without_words by done.
      apply size_empty_iff, leibniz_equiv in Hz.
      destruct (elements (asked_questions self)) eqn:He.
      * apply elements_empty_iff, leibniz_equiv in He.
        split; [done | by intros (_ & _ & ? & _)].
      * split.
        -- intros [= <-]. repeat split; try done.
           intros Hempty. rewrite Hempty, elements_empty in He. done.
        -- by intros [-> _].
    + rewrite loop_with_words by done. split; [done|].
      intros (_ & Hw & _). destruct Hnz. rewrite Hw. apply size_empty.
  - intros Hempty. unfold is_question_asked. cbn zeta.
    rewrite Hempty, bool_decide_eq_false_2 by set_solver.
    by rewrite elements_empty.
Qed.

Lemma is_question_asked_raises_iff_witness :
  is_ascii_text " ?.,? " = true ∧
  is_question_asked " ?.,? " (track_question "Do you have any fever?" (new_case ""))
  = Raise ZeroDivisionError ∧
  is_question_asked " ?.,? " (new_case "") = Ok false.
Proof.
  split; [reflexivity|].
  destruct (is_question_asked_raises_iff " ?.,? "
              (track_question "Do you have any fever?" (new_case "")) eq_refl)
    as [Hraise _].
  destruct (is_question_asked_raises_iff " ?.,? " (new_case "") eq_refl)
    as [_ Hempty].
  split.
  - apply Hraise. split; [reflexivity|]. split; [vm_compute; reflexivity|].
    split; apply (bool_decide_unpack _); vm_compute; exact I.
  - apply Hempty. reflexivity.
Defined.

(** [X11] A trailing question mark or blank and the case of the ASCII
    letters do not matter to the store: such variants of a question have
    the same normalized form, so [is_question_asked] answers the same on
    them and [track_question] stores the same. *)
Theorem question_variants_are_one (question : string) (self : CaseContext) :
  normalize (question +:+ "?") = normalize question ∧
  normalize (question +:+ " ") = normalize question ∧
  normalize (PyStr.lower question) = normalize question ∧
  is_question_asked (question +:+ "?") self = is_question_asked question self ∧
  is_question_asked (PyStr.lower question) self = is_question_asked question self ∧
  track_question (question +:+ "?") self = track_question question self.
Proof.
  assert (Hq : normalize (question +:+ "?") = normalize question).
  { unfold normalize. rewrite lower_app.
    change (PyStr.lower "?") with (String "?"%char "").
    by rewrite strip_snoc. }
  assert (Hb : normalize (question +:+ " ") = normalize question).
  { unfold normalize. rewrite lower_app.
    change (PyStr.lower " ") with (String " "%char "").
    by rewrite strip_snoc. }
  assert (Hl : normalize (PyStr.lower question) = normalize question).
  { unfold normalize. by rewrite lower_idempotent. }
  unfold is_question_asked, track_question. cbn zeta.
  rewrite Hq, Hl. done.
Qed.

(** [X12] [track_question] has the effect of a set insertion: tracking a
    question twice is tracking it once, the order of two trackings does not
    matter, and no stored question is ever lost along a sequence of calls. *)
Theorem asked_questions_is_a_growing_set (q1 q2 : string) (ops : list Op)
    (self : CaseContext) :
  track_question q1 (track_question q1 self) = track_question q1 self ∧
  track_question q1 (track_question q2 self) = track_question q2 (track_question q1 self) ∧
  asked_questions self ⊆ asked_questions (run ops self).
Proof.
  repeat split.
  - unfold track_question, with_asked_questions. cbn. f_equal.
    by rewrite (assoc_L (∪)), union_idemp_L.
  - unfold track_question, with_asked_questions. cbn. f_equal.
    by rewrite !(assoc_L (∪)), (comm_L (∪) {[normalize q1]}).
  - apply run_asked_questions.
Qed.

(** * Further properties of the chat page *)

Section ChatRequests.

Import Chat.

Lemma form_get_app (key : string) (form more : FormData) (v : string) :
  form_get key form = Some v → form_get key (form ++ more) = Some v.
Proof.
  unfold form_get. induction form as [|[k w] form IH]; cbn; [done|].
  destruct (String.eqb k key); [done | apply IH].
Qed.

Lemma form_get_append_if (key k : string) (v : option string) (form : FormData)
    (w : string) :
  form_get key form = Some w → form_get key (append_if k v form) = Some w.
Proof.
  intros Hg. unfold append_if. destruct v as [s|]; [|done].
  destruct (String.eqb s ""); [done | by apply form_get_app].
Qed.

(** The four leading entries of a form, whatever the profile. *)
Lemma build_form_entries (currentInput : string) (st : State) (env : SendEnv)
    (profileData : option ProfileData) :
  let form := build_form currentInput st env profileData in
  form_get "message" form = Some currentInput ∧
  form_get "session_id" form = Some (or_default (activeSessionId st) "default") ∧
  form_get "user_id" form = Some (or_default (uid env) "anonymous") ∧
  form_get "include_voice" form = Some "false".
Proof.
  cbn zeta. unfold build_form. destruct profileData as [p|].
  - repeat split; repeat apply form_get_append_if; reflexivity.
  - repeat split; reflexivity.
Qed.

Lemma or_default_not_empty (v : option string) (fallback : string) :
  fallback ≠ "" → or_default v fallback ≠ "".
Proof.
  intros Hf. unfold or_default. destruct v as [s|]; [|done].
  by destruct (String.eqb_spec s "").
Qed.

Lemma or_default_cases (v : option string) (fallback : string) :
  or_default v fallback = fallback ∨ v = Some (or_default v fallback).
Proof.
  unfold or_default. destruct v as [s|]; [|by left].
  destruct (String.eqb s ""); [by left | by right].
Qed.

Lemma truthy_trim_not_empty (s : string) :
  truthy (Some (trim s)) = true → trim s ≠ "".
Proof. cbn. by destruct (String.eqb_spec (trim s) ""). Qed.

(** What one call of [handleSend] adds to the requests. *)
Lemma handleSend_sent (env : SendEnv) (st : State) :
  sent (handleSend env st) = sent st ∨
  ∃ profileData,
    truthy (Some (trim (inputValue st))) = true ∧
    is_emergency_tier (urgencyTier st) = false ∧
    savedProfile env ≠ UnparsableProfile ∧
    sent (handleSend env st)
    = sent st ++ [build_form (inputValue st) st env profileData].
Proof.
  unfold handleSend.
  destruct (truthy (Some (trim (inputValue st)))) eqn:Ht; cbn [negb orb]; [|by left].
  destruct (is_emergency_tier (urgencyTier st)) eqn:He; [by left|].
  destruct (savedProfile env) as [| |p] eqn:Hp; cbn.
  - right. by exists None.
  - by left.
  - right. by exists (Some p).
Qed.

Lemma react_sent (ev : Event) (st : State) :
  sent (react ev st) = sent st ∨
  ∃ env, ev = Send env ∧ sent (react ev st) = sent (handleSend env st).
Proof.
  destruct ev as [v|env|clock o|clock|id]; cbn [react]; try by left.
  - right. by exists env.
  - destruct o; by left.
  - unfold selectSession. case_match; by left.
Qed.

Lemma react_sessions (ev : Event) (st : State) :
  sessions (react ev st) = sessions st ∨
  ∃ clock, ev = NewSession clock ∧
    sessions (react ev st)
    = {| s_id := clock; title := "New Assessment"; date := clock; s_messages := [] |}
      :: sessions st ∧
    activeSessionId (react ev st) = Some clock.
Proof.
  destruct ev as [v|env|clock o|clock|id]; cbn [react]; try by left.
  - left. unfold handleSend. by repeat case_match.
  - destruct o; by left.
  - right. by exists clock.
  - unfold selectSession. case_match; by left.
Qed.

Lemma react_active_is_listed (ev : Event) (st : State) :
  active_is_listed st → active_is_listed (react ev st).
Proof.
  unfold active_is_listed. intros Hinv.
  destruct ev as [v|env|clock o|clock|id]; cbn [react].
  - done.
  - unfold handleSend. repeat case_match; cbn; done.
  - destruct o; done.
  - cbn. intros id [= <-]. set_solver.
  - unfold selectSession. destruct (existsb _ _) eqn:Hex; [|done].
    cbn. intros id' [= <-].
    apply existsb_exists in Hex as (s & Hin & Heq%String.eqb_eq).
    apply list_elem_of_fmap. exists s. split; [done | by apply list_elem_of_In].
Qed.

End ChatRequests.

Section ChatHistories.

Import Chat.

Lemma handleSend_request_well_formed (env : SendEnv) (st : State) :
  Forall well_formed_request (sent st) →
  Forall well_formed_request (sent (handleSend env st)).
Proof.
  intros Hall. destruct (handleSend_sent env st) as [->|(p & Ht & _ & _ & ->)]; [done|].
  apply Forall_app. split; [done|]. apply Forall_singleton.
  destruct (build_form_entries (inputValue st) st env p) as (Hm & Hs & Hu & Hv).
  repeat split; try done.
  - eexists. split; [done|]. by apply truthy_trim_not_empty.
  - eexists. split; [done|]. by apply or_default_not_empty.
  - eexists. split; [done|]. by apply or_default_not_empty.
Qed.

Lemma handleSend_request_addressed (env : SendEnv) (st : State) :
  active_is_listed st →
  Forall (addressed_to_listed (sessions st)) (sent st) →
  Forall (addressed_to_listed (sessions st)) (sent (handleSend env st)).
Proof.
  intros Hact Hall.
  destruct (handleSend_sent env st) as [->|(p & _ & _ & _ & ->)]; [done|].
  apply Forall_app. split; [done|]. apply Forall_singleton.
  destruct (build_form_entries (inputValue st) st env p) as (_ & Hs & _).
  eexists. split; [done|].
  destruct (or_default_cases (activeSessionId st) "default") as [Hd|Hsome];
    [by left | right; by apply Hact].
Qed.

Lemma addressed_to_listed_mono (listed more : list Session) (form : FormData) :
  addressed_to_listed listed form → addressed_to_listed (more ++ listed) form.
Proof.
  intros (s & Hg & Hs). exists s. split; [done|].
  destruct Hs as [Hd|Hin]; [by left|].
  right. rewrite fmap_app. apply elem_of_app. by right.
Qed.

(** The invariant of the page: requests are well formed and addressed to
    listed sessions, the active session is listed, sessions are blank. *)
Lemma react_invariant (ev : Event) (st : State) :
  Forall well_formed_request (sent st) ∧ active_is_listed st ∧
  Forall (addressed_to_listed (sessions st)) (sent st) ∧
  Forall blank_session (sessions st) →
  Forall well_formed_request (sent (react ev st)) ∧ active_is_listed (react ev st) ∧
  Forall (addressed_to_listed (sessions (react ev st))) (sent (react ev st)) ∧
  Forall blank_session (sessions (react ev st)).
Proof.
  intros (Hwf & Hact & Haddr & Hblank).
  split; [|split; [by apply react_active_is_listed|]].
  - destruct (react_sent ev st) as [->|(env & -> & ->)]; [done|].
    by apply handleSend_request_well_formed.
  - destruct (react_sessions ev st) as [Hsame|(clock & -> & Hnew & _)].
    + rewrite Hsame. split; [|done].
      destruct (react_sent ev st) as [->|(env & -> & ->)]; [done|].
      by apply handleSend_request_addressed.
    + rewrite Hnew. cbn [react startNewSession sent]. split.
      * eapply Forall_impl; [exact Haddr|]. intros form Hf.
        by apply (addressed_to_listed_mono _ [_]).
      * apply Forall_cons. split; [done | done].
Qed.

Lemma replay_invariant (evs : list Event) (st : State) :
  Forall well_formed_request (sent st) ∧ active_is_listed st ∧
  Forall (addressed_to_listed (sessions st)) (sent st) ∧
  Forall blank_session (sessions st) →
  Forall well_formed_request (sent (replay evs st)) ∧ active_is_listed (replay evs st) ∧
  Forall (addressed_to_listed (sessions (replay evs st))) (sent (replay evs st)) ∧
  Forall blank_session (sessions (replay evs st)).
Proof.
  revert st. induction evs as [|ev evs IH]; intros st Hinv; [done|].
  apply (IH (react ev st)), react_invariant, Hinv.
Qed.

Lemma initial_invariant :
  Forall well_formed_request (sent initial) ∧ active_is_listed initial ∧
  Forall (addressed_to_listed (sessions initial)) (sent initial) ∧
  Forall blank_session (sessions initial).
Proof. repeat split; try apply Forall_nil; done. Qed.

Lemma react_sent_prefix (ev : Event) (st : State) :
  sent st `prefix_of` sent (react ev st) ∧
  length (sent (react ev st)) ≤ length (sent st) + (if is_send ev then 1 else 0).
Proof.
  destruct (react_sent ev st) as [->|(env & -> & ->)]; [split; [done | lia]|].
  destruct (handleSend_sent env st) as [->|(p & _ & _ & _ & ->)]; cbn [is_send].
  - split; [done | lia].
  - split; [by apply prefix_app_r | rewrite length_app; cbn; lia].
Qed.

Lemma replay_sent_prefix (evs : list Event) (st : State) :
  sent st `prefix_of` sent (replay evs st) ∧
  length (sent (replay evs st)) ≤ length (sent st) + length (List.filter is_send evs).
Proof.
  revert st. induction evs as [|ev evs IH]; intros st; [split; [done | cbn; lia]|].
  destruct (react_sent_prefix ev st) as [Hp Hl].
  destruct (IH (react ev st)) as [Hp' Hl'].
  change (replay (ev :: evs) st) with (replay evs (react ev st)).
  split; [by etrans|].
  cbn [List.filter]. destruct (is_send ev); cbn [length]; lia.
Qed.

Lemma react_keeps_tier (ev : Event) (st : State) :
  keeps_tier ev = true → urgencyTier (react ev st) = urgencyTier st.
Proof.
  intros Hk. destruct ev as [v|env|clock o|clock|id]; cbn [react]; try done.
  - unfold handleSend. by repeat case_match.
  - destruct o as [|tier response]; [done|]. cbn in *.
    by destruct (truthy tier).
  - unfold selectSession. by case_match.
Qed.

Lemma replay_keeps_tier (evs : list Event) (st : State) :
  forallb keeps_tier evs = true → urgencyTier (replay evs st) = urgencyTier st.
Proof.
  revert st. induction evs as [|ev evs IH]; intros st Hk; [done|].
  cbn in Hk. apply andb_true_iff in Hk as [Hev Hevs].
  change (replay (ev :: evs) st) with (replay evs (react ev st)).
  by rewrite IH, react_keeps_tier.
Qed.

End ChatHistories.

(** [X13] On an input of ASCII text, [handleSend] makes a request exactly
    when the input is not blank,
    the displayed tier is not emergency and the stored profile parses,
    whether or not an earlier request is still loading; the request then
    carries the input as typed, the active session id or "default", the
    uid or "anonymous" and no voice, and the input is cleared. With a
    stored profile that does not parse nothing is sent: the user's message
    is shown, followed by the connection error. *)
Theorem handleSend_submits_iff (env : Chat.SendEnv) (st : Chat.State) :
  is_ascii_text (Chat.inputValue st) = true →
  let can_send :=
    Chat.truthy (Some (Chat.trim (Chat.inputValue st)))
    && negb (Chat.is_emergency_tier (Chat.urgencyTier st)) in
  (can_send = false → Chat.handleSend env st = st) ∧
  (can_send = true → Chat.savedProfile env = Chat.UnparsableProfile →
     Chat.sent (Chat.handleSend env st) = Chat.sent st ∧
     Chat.isLoading (Chat.handleSend env st) = false ∧
     Chat.inputValue (Chat.handleSend env st) = "" ∧
     Chat.content <$> Chat.messages (Chat.handleSend env st)
     = (Chat.content <$> Chat.messages st)
       ++ [Chat.inputValue st; Chat.connection_error]) ∧
  (can_send = true → Chat.savedProfile env ≠ Chat.UnparsableProfile →
     ∃ form,
       Chat.sent (Chat.handleSend env st) = Chat.sent st ++ [form] ∧
       form_get "message" form = Some (Chat.inputValue st) ∧
       form_get "session_id" form
       = Some (Chat.or_default (Chat.activeSessionId st) "default") ∧
       form_get "user_id" form = Some (Chat.or_default (Chat.uid env) "anonymous") ∧
       form_get "include_voice" form = Some "false" ∧
       Chat.isLoading (Chat.handleSend env st) = true ∧
       Chat.inputValue (Chat.handleSend env st) = "").
Proof.
  intros _. cbn zeta. unfold Chat.handleSend.
  destruct (Chat.truthy (Some (Chat.trim (Chat.inputValue st)))) eqn:Ht;
    cbn [negb orb andb]; [|by repeat split].
  destruct (Chat.is_emergency_tier (Chat.urgencyTier st)) eqn:He;
    cbn [negb]; [by repeat split|].
  split; [intros [=]|]. split.
  - intros _ ->. cbn. rewrite !fmap_app, <- (assoc_L (++)). by repeat split.
  - intros _ Hp.
    destruct (Chat.savedProfile env) as [| |p]; [|done|]; cbn.
    + eexists. split; [reflexivity|].
      destruct (build_form_entries (Chat.inputValue st) st env None)
        as (? & ? & ? & ?).
      by repeat split.
    + eexists. split; [reflexivity|].
      destruct (build_form_entries (Chat.inputValue st) st env (Some p))
        as (? & ? & ? & ?).
      by repeat split.
Qed.

Lemma handleSend_submits_iff_witness :
  let st := Chat.replay [Chat.NewSession "1001"; Chat.Typed "I have a cough";
                         Chat.Send {| Chat.now := "1002";
                                      Chat.savedProfile := Chat.NoProfile;
                                      Chat.uid := None |};
                         Chat.Typed "and a fever"] Chat.initial in
  is_ascii_text (Chat.inputValue st) = true ∧
  Chat.isLoading st = true ∧
  ∃ form,
    Chat.sent (Chat.handleSend {| Chat.now := "1003";
                                  Chat.savedProfile := Chat.NoProfile;
                                  Chat.uid := Some "u42" |} st)
    = Chat.sent st ++ [form] ∧
    form_get "message" form = Some "and a fever" ∧
    form_get "session_id" form = Some "1001" ∧
    form_get "user_id" form = Some "u42".
Proof.
  cbn zeta. split; [reflexivity|]. split; [reflexivity|].
  match goal with |- ∃ form, Chat.sent (Chat.handleSend ?env ?st) = _ ∧ _ =>
    destruct (proj2 (proj2 (handleSend_submits_iff env st eq_refl)) eq_refl)
      as (form & Hs & Hm & Hi & Hu & _)
  end; [discriminate|].
  exists form. repeat split; assumption.
Defined.

(** [X14] Along every history of the page from its first render, each
    request made has a message that is not blank, a session id and a user
    id that are not empty and [include_voice] false, and is addressed
    either to "default" or to a session of the side panel. *)
Theorem requests_are_well_formed (evs : list Chat.Event) :
  Forall well_formed_request (Chat.sent (Chat.replay evs Chat.initial)) ∧
  Forall (addressed_to_listed (Chat.sessions (Chat.replay evs Chat.initial)))
         (Chat.sent (Chat.replay evs Chat.initial)).
Proof.
  destruct (replay_invariant evs Chat.initial initial_invariant) as (? & _ & ? & _).
  by split.
Qed.

(** Requests are only ever appended: the requests made before a
    sequence of events are a prefix of those made after it, and the
    sequence adds at most one request per call of [handleSend]. *)
Theorem requests_are_append_only (evs : list Chat.Event) (st : Chat.State) :
  Chat.sent st `prefix_of` Chat.sent (Chat.replay evs st) ∧
  length (Chat.sent (Chat.replay evs st))
  ≤ length (Chat.sent st) + length (List.filter is_send evs) ∧
  Chat.sent (Chat.replay evs st)
  = Chat.sent st ++ Chat.submitted_since st (Chat.replay evs st).
Proof.
  destruct (replay_sent_prefix evs st) as [Hp Hl]. repeat split; try done.
  unfold Chat.submitted_since. destruct Hp as [more ->].
  by rewrite drop_app_length.
Qed.

(** [X15] The page never stores a conversation in a session: along every
    history from the first render all listed sessions are titled "New
    Assessment" and have no messages, and selecting a session changes the
    active session id only, so the messages and the tier on display stay
    those of the session left. *)
Theorem sessions_never_record_messages (evs : list Chat.Event) (id : string) :
  let st := Chat.replay evs Chat.initial in
  Forall blank_session (Chat.sessions st) ∧
  Chat.messages (Chat.selectSession id st) = Chat.messages st ∧
  Chat.urgencyTier (Chat.selectSession id st) = Chat.urgencyTier st ∧
  Chat.inputValue (Chat.selectSession id st) = Chat.inputValue st ∧
  Chat.sessions (Chat.selectSession id st) = Chat.sessions st.
Proof.
  cbn zeta.
  destruct (replay_invariant evs Chat.initial initial_invariant) as (_ & _ & _ & ?).
  split; [done|]. unfold Chat.selectSession. by case_match.
Qed.

(** [X16] The displayed tier changes only by a new assessment or by a
    response that carries a tier; such a response replaces the display
    whatever it was, so a response carrying another tier after an
    emergency brings the input row back. *)
Theorem displayed_tier_follows_responses (evs : list Chat.Event) (st : Chat.State)
    (clock tier response : string) :
  (forallb keeps_tier evs = true →
     Chat.urgencyTier (Chat.replay evs st) = Chat.urgencyTier st) ∧
  (tier ≠ "" →
     Chat.urgencyTier (Chat.on_outcome clock (Chat.Data (Some tier) response) st)
     = Some tier) ∧
  (tier ≠ "" → tier ≠ "emergency" → Chat.truthy (Chat.activeSessionId st) = true →
     ∃ note disabled,
       Chat.input_area (Chat.on_outcome clock (Chat.Data (Some tier) response) st)
       = Chat.InputRow note disabled).
Proof.
  repeat split.
  - apply replay_keeps_tier.
  - intros Hne. cbn. by destruct (String.eqb_spec tier "").
  - intros Hne Hnem Hact. unfold Chat.input_area. cbn.
    cbn in Hact. rewrite Hact.
    destruct (String.eqb_spec tier ""); [done|]. cbn.
    destruct (String.eqb_spec tier "emergency"); [done|]. by eexists _, _.
Qed.

(** [X17] End to end: when the page receives the response built from a
    case context, it shows the disabled notice for its active session
    exactly when [is_emergency] holds of the context, and it files the
    response as a system message in that case and as an assistant message
    otherwise. *)
Theorem emergency_response_disables_input (self : CaseContext)
    (ai_response session clock : string) (st : Chat.State) :
  valid_tier (urgency_tier self) →
  Chat.truthy (Chat.activeSessionId st) = true →
  let after := Chat.on_outcome clock (outcome_of (result_of self ai_response session)) st in
  (Chat.input_area after = Chat.DisabledNotice ↔ ThreeTier.is_emergency self = true) ∧
  Chat.role <$> last (Chat.messages after)
  = Some (if ThreeTier.is_emergency self then Chat.system else Chat.assistant) ∧
  Chat.content <$> last (Chat.messages after) = Some ai_response.
Proof.
  intros Hv Hact. cbn zeta. unfold outcome_of, Chat.input_area, ThreeTier.is_emergency.
  cbn -[last]. cbn in Hact. rewrite Hact, !last_snoc.
  assert (Hne : String.eqb (urgency_tier self) "" = false).
  { apply valid_tier_cases in Hv as [->|[->| ->]]; reflexivity. }
  rewrite Hne. cbn.
  destruct (String.eqb (urgency_tier self) "emergency"); by repeat split.
Qed.

Lemma emergency_response_disables_input_witness :
  let self := _calculate_severity "sudden severe headache and vomiting"
                (new_case "sudden severe headache and vomiting") in
  let escalated := step (SetUrgency (candidate_tier (severity_score self))) self in
  let st := Chat.replay [Chat.NewSession "1001"] Chat.initial in
  valid_tier (urgency_tier escalated) ∧
  Chat.truthy (Chat.activeSessionId st) = true ∧
  Chat.input_area
    (Chat.on_outcome "1002" (outcome_of (result_of escalated "Call 911." "1001")) st)
  = Chat.DisabledNotice.
Proof.
  cbn zeta.
  match goal with |- valid_tier (urgency_tier ?c) ∧ _ =>
    assert (Hv : valid_tier (urgency_tier c)) by (exists 2%Z; vm_compute; reflexivity);
    pose proof (emergency_response_disables_input c "Call 911." "1001" "1002"
                  (Chat.replay [Chat.NewSession "1001"] Chat.initial) Hv eq_refl)
      as [Harea _]
  end.
  split; [exact Hv|]. split; [reflexivity|].
  apply Harea. vm_compute. reflexivity.
Defined.

(** * Properties of the structured assessment *)

(** A reply in the format the prompt asks for. *)
Example parse_sample :
  Assessment.parseAssessment
    ("**GREETING**" +:+ String (ascii_of_nat 10) ""
     +:+ "Thank you for sharing your symptoms."
     +:+ String (ascii_of_nat 10) ""
     +:+ "**Summary**" +:+ String (ascii_of_nat 10) ""
     +:+ "Right lower abdominal pain with nausea.  "
     +:+ String (ascii_of_nat 10) ""
     +:+ "**PRIMARY CONCERN** Appendicitis "
     +:+ "**ACTION** Seek **same-day** evaluation. "
     +:+ "**DISCLAIMER:** Not a diagnosis.")
  = {| Assessment.summary := Some "Right lower abdominal pain with nausea.";
       Assessment.concern := Some "Appendicitis";
       Assessment.other := None;
       Assessment.action := Some "Seek **same-day** evaluation.";
       Assessment.disclaimer := Some "Not a diagnosis." |}.
Proof. vm_compute. reflexivity. Qed.

Section AssessmentFacts.

Import Assessment.

(** [find_ci] splits the text around a piece as long as the pattern. *)
Lemma starts_with_ci_split (pat s rest : string) :
  starts_with_ci pat s = Some rest →
  ∃ matched, s = matched +:+ rest ∧ String.length matched = String.length pat.
Proof.
  revert s. induction pat as [|p pat IH]; intros s Hs.
  - exists "". by inversion Hs.
  - destruct s as [|c s]; [done|]. cbn in Hs.
    destruct (Ascii.eqb _ _); [|done].
    destruct (IH s Hs) as (m & -> & Hlen). exists (String c m).
    split; [reflexivity | cbn; by rewrite Hlen].
Qed.

Lemma find_ci_split (pat s before rest : string) :
  find_ci pat s = Some (before, rest) →
  ∃ matched, s = before +:+ matched +:+ rest
             ∧ String.length matched = String.length pat.
Proof.
  revert before. induction s as [|c s IH]; intros before; cbn.
  - destruct (starts_with_ci pat "") eqn:Hs; [|done].
    intros [= <- <-]. by apply starts_with_ci_split in Hs.
  - destruct (starts_with_ci pat (String c s)) eqn:Hs.
    + intros [= <- <-]. by apply starts_with_ci_split in Hs.
    + destruct (find_ci pat s) as [[b r]|]; [|done].
      intros [= <- <-]. destruct (IH b eq_refl) as (m & -> & Hlen).
      by exists m.
Qed.

Lemma capture_until_split (look s : string) :
  s = fst (capture_until look s) +:+ snd (capture_until look s).
Proof.
  induction s as [|c s IH]; cbn.
  - by destruct (starts_with_ci look "").
  - destruct (starts_with_ci look (String c s)); [done|].
    destruct (capture_until look s) as [captured left]. cbn in *.
    by rewrite append_cons, <- IH.
Qed.

(** Substrings. *)
Lemma prefix_app (needle s t : string) :
  String.prefix needle s = true → String.prefix needle (s +:+ t) = true.
Proof.
  revert s. induction needle as [|n needle IH]; intros s;
    [intros _; by destruct (s +:+ t)|].
  destruct s as [|c s]; [done|]. rewrite append_cons. cbn.
  destruct (ascii_dec n c); [apply IH | done].
Qed.

Lemma contains_app_l (needle s t : string) :
  PyStr.contains needle s = true → PyStr.contains needle (s +:+ t) = true.
Proof.
  induction s as [|c s IH].
  - cbn. rewrite orb_false_r. intros Hp.
    destruct needle; [by destruct t | done].
  - rewrite append_cons. cbn. intros [Hp|Hc]%orb_true_iff.
    + apply orb_true_iff. left. by apply (prefix_app needle (String c s) t).
    + apply orb_true_iff. right. by apply IH.
Qed.

Lemma contains_app_r (needle s t : string) :
  PyStr.contains needle t = true → PyStr.contains needle (s +:+ t) = true.
Proof.
  intros Ht. induction s as [|c s IH]; [done|].
  rewrite append_cons. cbn. rewrite IH. apply orb_true_r.
Qed.

Lemma lstrip_suffix (chars : list ascii) (s : string) :
  ∃ dropped, s = dropped +:+ PyStr.lstrip chars s.
Proof.
  induction s as [|c s [d IH]]; [by exists ""|]. cbn.
  destruct (PyStr.mem_char c chars); [|by exists ""].
  exists (String c d). by rewrite append_cons, <- IH.
Qed.

Lemma rstrip_prefix (chars : list ascii) (s : string) :
  ∃ dropped, s = PyStr.rstrip chars s +:+ dropped.
Proof.
  induction s as [|c s [d IH]]; [by exists ""|]. cbn.
  destruct (PyStr.rstrip chars s) as [|k kept] eqn:Hr.
  - destruct (PyStr.mem_char c chars).
    + by exists (String c s).
    + exists s. reflexivity.
  - exists d. by rewrite append_cons, <- IH.
Qed.

Lemma contains_strip (needle : string) (chars : list ascii) (s : string) :
  PyStr.contains needle (PyStr.strip chars s) = true → PyStr.contains needle s = true.
Proof.
  unfold PyStr.strip. intros Hc.
  destruct (lstrip_suffix chars s) as [d Hd].
  destruct (rstrip_prefix chars (PyStr.lstrip chars s)) as [d' Hd'].
  rewrite Hd. apply contains_app_r. rewrite Hd'. by apply contains_app_l.
Qed.

(** [strip] applied twice. *)
Lemma lstrip_fixed (chars : list ascii) (s : string) :
  match s with
  | EmptyString => True
  | String c _ => PyStr.mem_char c chars = false
  end → PyStr.lstrip chars s = s.
Proof. destruct s as [|c s]; [done|]. cbn. by intros ->. Qed.

Lemma lstrip_head (chars : list ascii) (s : string) :
  match PyStr.lstrip chars s with
  | EmptyString => True
  | String c _ => PyStr.mem_char c chars = false
  end.
Proof.
  induction s as [|c s IH]; [done|]. cbn.
  destruct (PyStr.mem_char c chars) eqn:Hc; [done | by rewrite Hc].
Qed.

Lemma rstrip_head (chars : list ascii) (s : string) :
  match s with
  | EmptyString => True
  | String c _ => PyStr.mem_char c chars = false
  end →
  match PyStr.rstrip chars s with
  | EmptyString => True
  | String c _ => PyStr.mem_char c chars = false
  end.
Proof.
  destruct s as [|c s]; [done|]. cbn. intros Hc.
  destruct (PyStr.rstrip chars s); [by rewrite Hc | done].
Qed.

Lemma rstrip_idempotent (chars : list ascii) (s : string) :
  PyStr.rstrip chars (PyStr.rstrip chars s) = PyStr.rstrip chars s.
Proof.
  induction s as [|c s IH]; [done|]. cbn.
  destruct (PyStr.rstrip chars s) as [|k kept] eqn:Hr.
  - destruct (PyStr.mem_char c chars) eqn:Hc; [done|]. cbn. by rewrite Hc.
  - cbn in *. by rewrite IH.
Qed.

Lemma strip_idempotent (chars : list ascii) (s : string) :
  PyStr.strip chars (PyStr.strip chars s) = PyStr.strip chars s.
Proof.
  unfold PyStr.strip.
  rewrite (lstrip_fixed chars (PyStr.rstrip chars (PyStr.lstrip chars s))).
  - apply rstrip_idempotent.
  - apply rstrip_head, lstrip_head.
Qed.

#[local] Arguments ascii_dec : simpl never.

(** The capture before "**" holds no "**". *)
Lemma capture_no_double_star (s : string) :
  PyStr.contains "**" (fst (capture_until "**" s)) = false.
Proof.
  induction s as [|c s IH]; [done|].
  cbn [capture_until].
  destruct (starts_with_ci "**" (String c s)) eqn:Hs; [done|].
  pose proof (capture_until_split "**" s) as Hsplit.
  destruct (capture_until "**" s) as [captured left]. cbn [fst snd] in *.
  cbn [PyStr.contains]. rewrite IH, orb_false_r.
  destruct captured as [|k captured]; cbn; [by destruct (ascii_dec "*" c)|].
  destruct (ascii_dec "*" c) as [<-|]; [|done].
  destruct (ascii_dec "*" k) as [<-|]; [|done].
  rewrite Hsplit in Hs. vm_compute in Hs. discriminate.
Qed.

Lemma section_no_double_star (marker s x : string) :
  section marker "**" s = Some x →
  PyStr.contains "**" x = false ∧ Chat.trim x = x.
Proof.
  unfold section. destruct (find_ci marker s) as [[before rest]|]; [|done].
  intros [= <-]. split.
  - destruct (PyStr.contains "**" (Chat.trim _)) eqn:Hc; [|done].
    apply contains_strip in Hc. by rewrite capture_no_double_star in Hc.
  - apply strip_idempotent.
Qed.

Lemma prefix_empty (s : string) : String.prefix "" s = true.
Proof. by destruct s. Qed.

(** A text without asterisk. *)
Lemma starts_with_ci_star (pat s : string) :
  PyStr.contains "*" s = false → starts_with_ci (String "*" pat) s = None.
Proof.
  destruct s as [|c s]; [done|].
  cbn [PyStr.contains String.prefix starts_with_ci].
  destruct (ascii_dec "*" c) as [<-|Hne].
  - by rewrite prefix_empty.
  - intros _.
    destruct (Ascii.eqb_spec (PyStr.lower_char "*") (PyStr.lower_char c)) as [He|];
      [|done].
    destruct Hne. revert He.
    destruct c as [[] [] [] [] [] [] [] []]; vm_compute; congruence.
Qed.

Lemma contains_star_cons (c : ascii) (s : string) :
  PyStr.contains "*" (String c s) = false → PyStr.contains "*" s = false.
Proof. cbn. by intros [_ ?]%orb_false_iff. Qed.

Lemma find_ci_star (pat s : string) :
  PyStr.contains "*" s = false → find_ci (String "*" pat) s = None.
Proof.
  induction s as [|c s IH]; intros Hs.
  - reflexivity.
  - cbn [find_ci]. rewrite starts_with_ci_star by done.
    by rewrite IH by (by eapply contains_star_cons).
Qed.

Lemma no_star_strip (chars : list ascii) (s : string) :
  PyStr.contains "*" s = false → PyStr.contains "*" (PyStr.strip chars s) = false.
Proof.
  intros Hs. destruct (PyStr.contains "*" (PyStr.strip chars s)) eqn:Hc; [|done].
  apply contains_strip in Hc. congruence.
Qed.

Lemma no_star_app (s t : string) :
  PyStr.contains "*" (s +:+ t) = PyStr.contains "*" s || PyStr.contains "*" t.
Proof.
  induction s as [|c s IH]; [done|]. rewrite append_cons. cbn.
  rewrite IH. destruct (ascii_dec "*" c); [by rewrite !prefix_empty | done].
Qed.

Lemma no_star_remove_thanks (s : string) :
  PyStr.contains "*" s = false → PyStr.contains "*" (remove_thanks s) = false.
Proof.
  intros Hs. unfold remove_thanks.
  destruct (find_ci _ s) as [[before rest]|] eqn:Hf; [|done].
  apply find_ci_split in Hf as (m & -> & _).
  rewrite !no_star_app in Hs. rewrite no_star_app.
  apply orb_false_iff in Hs as [-> [_ ->]%orb_false_iff]. done.
Qed.

End AssessmentFacts.

Section AssessmentSections.

Import Assessment.

Lemma contains_needs_star (pat s : string) :
  PyStr.contains "*" s = false → PyStr.contains (String "*" pat) s = false.
Proof.
  induction s as [|c s IH]; [done|].
  cbn [PyStr.contains String.prefix].
  destruct (ascii_dec "*" c) as [<-|Hne].
  - by rewrite prefix_empty.
  - cbn [orb]. exact IH.
Qed.

Lemma section_needs_star (pat look s : string) :
  PyStr.contains "*" s = false → section (String "*" pat) look s = None.
Proof. intros Hs. unfold section. by rewrite find_ci_star. Qed.

End AssessmentSections.

(** [X18] The summary, primary-concern and other-possibilities sections
    that [parseAssessment] extracts never contain "**" and carry no white
    space at either end: each stops at the next marker and is trimmed. *)
Theorem sections_are_clean (content section_text : string) :
  Assessment.summary (Assessment.parseAssessment content) = Some section_text
  ∨ Assessment.concern (Assessment.parseAssessment content) = Some section_text
  ∨ Assessment.other (Assessment.parseAssessment content) = Some section_text →
  PyStr.contains "**" section_text = false ∧ Chat.trim section_text = section_text.
Proof.
  unfold Assessment.parseAssessment. cbn.
  intros [H|[H|H]]; by apply section_no_double_star in H.
Qed.

Lemma sections_are_clean_witness :
  Assessment.concern
    (Assessment.parseAssessment
       "**SUMMARY** Chest pain. **PRIMARY CONCERN**  Angina **ACTION** Go today.")
  = Some "Angina" ∧
  PyStr.contains "**" "Angina" = false ∧ Chat.trim "Angina" = "Angina".
Proof.
  assert (H : Assessment.concern
    (Assessment.parseAssessment
       "**SUMMARY** Chest pain. **PRIMARY CONCERN**  Angina **ACTION** Go today.")
    = Some "Angina") by (vm_compute; reflexivity).
  split; [exact H|].
  exact (sections_are_clean _ "Angina" (or_intror (or_introl H))).
Defined.

(** [X19] A reply without any asterisk has no section at all and is not a
    structured assessment: every marker starts with an asterisk, and
    neither the removal of the greeting and of the thanks nor the trimming
    can bring one in. *)
Theorem no_asterisk_no_section (content : string) :
  PyStr.contains "*" content = false →
  Assessment.parseAssessment content
  = {| Assessment.summary := None; Assessment.concern := None;
       Assessment.other := None; Assessment.action := None;
       Assessment.disclaimer := None |} ∧
  Assessment.isStructuredAssessment content = false.
Proof.
  intros Hs. split.
  - unfold Assessment.parseAssessment. cbn zeta.
    assert (Hg : Assessment.remove_greeting content = content).
    { unfold Assessment.remove_greeting. by rewrite find_ci_star. }
    rewrite Hg.
    assert (Hclean : PyStr.contains "*"
              (Chat.trim (Assessment.remove_thanks (Chat.trim content))) = false).
    { by apply no_star_strip, no_star_remove_thanks, no_star_strip. }
    rewrite !section_needs_star by done.
    unfold Assessment.section_to_end. by rewrite find_ci_star.
  - unfold Assessment.isStructuredAssessment.
    by rewrite !contains_needs_star.
Qed.

Lemma no_asterisk_no_section_witness :
  PyStr.contains "*" "Rest, drink fluids and monitor your temperature." = false ∧
  Assessment.isStructuredAssessment
    "Rest, drink fluids and monitor your temperature." = false.
Proof.
  split; [reflexivity|].
  exact (proj2 (no_asterisk_no_section
                  "Rest, drink fluids and monitor your temperature." eq_refl)).
Defined.

(** [X20] How a response is drawn once it has arrived: as an alert box when
    it carries the emergency tier, whatever its text; otherwise as an
    assessment panel exactly when its text contains one of the three
    markers "**SUMMARY**", "**PRIMARY CONCERN**", "**ACTION**" (in upper
    case), and as a plain bubble if not. *)
Theorem arrived_response_drawn (clock : string) (tier : option string)
    (response : string) (st : Chat.State) :
  Assessment.draw
    <$> last (Chat.messages (Chat.on_outcome clock (Chat.Data tier response) st))
  = Some (if Chat.is_emergency_tier tier then Assessment.AlertBox
          else if Assessment.isStructuredAssessment response
               then Assessment.Panel else Assessment.Bubble).
Proof.
  cbn -[last]. rewrite last_snoc. cbn. unfold Assessment.draw. cbn.
  by destruct (Chat.is_emergency_tier tier).
Qed.

(** * The console and the three-tier response *)

(** [X21] For the response that the three-tier revision builds from a case
    context, the console never shows its critical banner: the
    [emergency_level] key carries the tier name, which is never "critical".
    An emergency reply is typed [emergency] and gets no banner, an urgent
    reply is typed [doctor] and gets the urgent banner, a routine reply is
    typed [doctor] and gets none. *)
Theorem console_never_shows_critical_banner (self : CaseContext)
    (ai_response session : string) :
  valid_tier (urgency_tier self) →
  ∃ message,
    Console.consultation_message (result_of self ai_response session) = Some message ∧
    Console.banner message ≠ Console.CriticalBanner ∧
    (Console.banner message = Console.UrgentBanner ↔ ThreeTier.is_urgent self = true) ∧
    (Console.type message = Console.emergency ↔ ThreeTier.is_emergency self = true) ∧
    (ThreeTier.is_emergency self = true → Console.banner message = Console.NoBanner).
Proof.
  intros Hv. eexists. split; [reflexivity|].
  unfold Console.banner. cbn. unfold ThreeTier.is_urgent, ThreeTier.is_emergency.
  apply valid_tier_cases in Hv as [->|[->| ->]]; eqb_closed; cbn;
    repeat split; intros; try done; discriminate.
Qed.

Lemma console_never_shows_critical_banner_witness :
  valid_tier (urgency_tier (with_urgency_tier "emergency" (new_case "chest pain"))) ∧
  ∃ message,
    Console.consultation_message
      (result_of (with_urgency_tier "emergency" (new_case "chest pain")) "Call 911." "s1")
    = Some message ∧
    Console.banner message = Console.NoBanner.
Proof.
  assert (Hv : valid_tier
                 (urgency_tier (with_urgency_tier "emergency" (new_case "chest pain"))))
    by (exists 2%Z; reflexivity).
  split; [exact Hv|].
  destruct (console_never_shows_critical_banner _ "Call 911." "s1" Hv)
    as (message & Hm & _ & _ & _ & Hb).
  exists message. split; [exact Hm | exact (Hb eq_refl)].
Defined.

(** * Scoring an accumulated text *)

Section Accumulation.

Lemma points_if_mono (a b : bool) (points : Z) :
  (0 <= points)%Z → (a = true → b = true) →
  (points_if a points <= points_if b points)%Z.
Proof.
  intros Hp Hab. unfold points_if. destruct a, b; lia.
Qed.

Lemma score_markers_mono (shorter longer : string) :
  (∀ keyword, PyStr.contains keyword shorter = true →
              PyStr.contains keyword longer = true) →
  (score_markers shorter <= score_markers longer)%Z.
Proof.
  intros Hsub. rewrite !score_markers_presence.
  repeat apply Z.add_le_mono; apply points_if_mono; try lia; apply Hsub.
Qed.

Lemma level_after_score (score : Z) (self : CaseContext) :
  valid_level (emergency_level self) →
  level_rank (match escalation_for score with
              | Some level => emergency_level (set_emergency level self)
              | None => emergency_level self
              end)
  = (λ current, Z.max current
                  (if (5 <=? score)%Z then 2 else if (3 <=? score)%Z then 1 else 0)%Z)
    <$> level_rank (emergency_level self).
Proof.
  intros Hv. unfold escalation_for, set_emergency.
  destruct (5 <=? score)%Z; [|destruct (3 <=? score)%Z];
    apply valid_level_cases in Hv as [Hl|[Hl|Hl]];
    eqb_closed; cbn; rewrite ?Hl; eqb_closed; cbn; rewrite ?Hl; reflexivity.
Qed.

End Accumulation.

(** [X22] Scoring an accumulated text never loses what a part of it
    scored: the score of a text followed by more text is at least the
    score of either part, and the level it leaves is at least the level the
    first part alone would have left. *)
Theorem score_grows_with_text (text more : string) (self : CaseContext) :
  valid_level (emergency_level self) →
  (severity_score (_calculate_severity text self)
   <= severity_score (_calculate_severity (text +:+ more) self))%Z ∧
  (severity_score (_calculate_severity more self)
   <= severity_score (_calculate_severity (text +:+ more) self))%Z ∧
  level_le (emergency_level (_calculate_severity text self))
           (emergency_level (_calculate_severity (text +:+ more) self)).
Proof.
  intros Hv.
  destruct (calculate_severity_score text self) as [-> _].
  destruct (calculate_severity_score more self) as [-> _].
  destruct (calculate_severity_score (text +:+ more) self) as [-> _].
  rewrite !calculate_severity_level. rewrite lower_app.
  assert (H1 : (score_markers (PyStr.lower text)
                <= score_markers (PyStr.lower text +:+ PyStr.lower more))%Z).
  { apply score_markers_mono. intros keyword. apply contains_app_l. }
  assert (H2 : (score_markers (PyStr.lower more)
                <= score_markers (PyStr.lower text +:+ PyStr.lower more))%Z).
  { apply score_markers_mono. intros keyword. apply contains_app_r. }
  repeat split; try done.
  unfold level_le. rewrite !level_after_score by done.
  destruct Hv as [current ->]. cbn.
  repeat match goal with |- context [(?a <=? ?b)%Z] =>
    destruct (Z.leb_spec a b) end; lia.
Qed.

Lemma score_grows_with_text_witness :
  valid_level (emergency_level (new_case "mild headache")) ∧
  (severity_score (_calculate_severity "mild headache" (new_case "mild headache"))
   <= severity_score
        (_calculate_severity ("mild headache" +:+ " actually it was sudden, with vomiting")
           (new_case "mild headache")))%Z.
Proof.
  assert (Hv : valid_level (emergency_level (new_case "mild headache")))
    by (exists 0%Z; reflexivity).
  split; [exact Hv|].
  exact (proj1 (score_grows_with_text "mild headache"
                  " actually it was sudden, with vomiting"
                  (new_case "mild headache") Hv)).
Defined.
